(** * stunnel: a SLURM SPANK plugin that opens an ssh tunnel to a job's node

    Shallow embedding of [stunnel-plug.c] and the properties of its
    tunnel-establishment code: configuration loading, command rendering,
    the launch of the helper program, the local set-up hook and the exit
    hook.

    C strings are [string]s, [uint32_t] values are [N] (printed modulo
    [2^32]), a nullable [char*] is an [option string], and the calls into
    libc and Slurm that have effects are recorded in a trace of events. *)

From Stdlib Require Import List String Ascii NArith ZArith Lia Bool.
Import ListNotations.

Local Open Scope string_scope.

(** ** Strings as the C library sees them *)

Module CStr.

(** The double quote character, written by its code. *)
Definition dquote : ascii := "034"%char.

Definition DQ : string := String dquote EmptyString.

Definition strlen (s : string) : nat := String.length s.

(** [strncmp a b n == 0]: the first [n] characters agree, or both strings
    end, at the same place, before that. *)
Fixpoint strncmp_eq (n : nat) (a b : string) : bool :=
  match n with
  | O => true
  | S n' =>
      match a, b with
      | EmptyString, EmptyString => true
      | String x a', String y b' =>
          if Ascii.eqb x y then strncmp_eq n' a' b' else false
      | _, _ => false
      end
  end.

(** Pointer arithmetic [s + n] on a string at least [n] long. *)
Fixpoint advance (n : nat) (s : string) : string :=
  match n with
  | O => s
  | S n' => match s with
            | EmptyString => EmptyString
            | String _ s' => advance n' s'
            end
  end.

(** The first [n] characters of [s]. *)
Fixpoint truncate (n : nat) (s : string) : string :=
  match n with
  | O => EmptyString
  | S n' => match s with
            | EmptyString => EmptyString
            | String c s' => String c (truncate n' s')
            end
  end.

(** [s] occurs in [t]. *)
Fixpoint occurs (s t : string) : bool :=
  String.prefix s t ||
  match t with
  | EmptyString => false
  | String _ t' => occurs s t'
  end.

(** [c] is a character of [s]. *)
Fixpoint mem (c : ascii) (s : string) : bool :=
  match s with
  | EmptyString => false
  | String d s' => Ascii.eqb c d || mem c s'
  end.

(** [isspace] in the C locale: space, \t, \n, \v, \f, \r. *)
Definition isspace (c : ascii) : bool :=
  let n := N_of_ascii c in
  (N.eqb n 32 || (N.leb 9 n && N.leb n 13))%N.

Fixpoint skip_space (s : string) : string :=
  match s with
  | EmptyString => EmptyString
  | String c s' => if isspace c then skip_space s' else s
  end.

Fixpoint take_nonspace (n : nat) (s : string) : string :=
  match n with
  | O => EmptyString
  | S n' =>
      match s with
      | EmptyString => EmptyString
      | String c s' =>
          if isspace c then EmptyString else String c (take_nonspace n' s')
      end
  end.

(** The one conversion of [fscanf(f, "%255s", buf)] on a stream that
    holds [input] up to its end: leading white space is skipped, then at
    most 255 characters that are not white space are stored.  [None] is
    every return value other than 1. *)
Definition fscanf_255s (input : string) : option string :=
  match take_nonspace 255 (skip_space input) with
  | EmptyString => None
  | tok => Some tok
  end.

(** *** Splitting and reading digits *)

(** The pieces of [s] between the occurrences of [sep]; never empty. *)
Fixpoint split_on (sep : ascii) (s : string) : list string :=
  match s with
  | EmptyString => [EmptyString]
  | String c s' =>
      if Ascii.eqb c sep then EmptyString :: split_on sep s'
      else
        match split_on sep s' with
        | [] => [String c EmptyString]
        | x :: r => String c x :: r
        end
  end.

Definition is_digit (c : ascii) : bool :=
  let n := N_of_ascii c in (N.leb 48 n && N.leb n 57)%N.

Fixpoint all_digits (s : string) : bool :=
  match s with
  | EmptyString => true
  | String c s' => is_digit c && all_digits s'
  end.

(** The value of a string of digits, read after the value [acc]. *)
Fixpoint dec_value_from (acc : N) (s : string) : N :=
  match s with
  | EmptyString => acc
  | String c s' => dec_value_from (10 * acc + (N_of_ascii c - 48))%N s'
  end.

Definition dec_value (s : string) : N := dec_value_from 0 s.

(** *** Decimal output of [%u] *)

Definition digit_char (d : N) : ascii := ascii_of_N (48 + d).

(** The decimal digits of [n], most significant first, added in front of
    [acc]; [fuel] bounds the number of digits. *)
Fixpoint dec_go (fuel : nat) (n : N) (acc : string) : string :=
  match fuel with
  | O => acc
  | S f =>
      let acc' := String (digit_char (n mod 10)) acc in
      if (n / 10 =? 0)%N then acc' else dec_go f (n / 10)%N acc'
  end.

(** [%u] of a [uint32_t]: at most ten digits. *)
Definition print_u32 (n : N) : string :=
  dec_go 10 (n mod 2 ^ 32)%N EmptyString.

(** *** [printf] formats with [%s] and [%u] *)

Inductive fmt_arg : Type :=
| ArgS (s : string)
| ArgU (n : N).

Definition render_arg (a : fmt_arg) : string :=
  match a with
  | ArgS s => s
  | ArgU n => print_u32 n
  end.

(** The output of a format: [%s] and [%u] take the next argument, which
    is printed by its own type; every other character stands for itself. *)
Fixpoint format (pat : string) (args : list fmt_arg) {struct pat} : string :=
  match pat with
  | EmptyString => EmptyString
  | String c rest =>
      if Ascii.eqb c "%" then
        match rest with
        | EmptyString => String c EmptyString
        | String d rest' =>
            if Ascii.eqb d "s" || Ascii.eqb d "u" then
              match args with
              | a :: args' => render_arg a ++ format rest' args'
              | [] => format rest' []
              end
            else String c (format rest args)
        end
      else String c (format rest args)
  end.

(** [snprintf(buf, size, pat, ...)]: what ends up in [buf], and the
    returned length of the untruncated output. *)
Definition snprintf (size : nat) (pat : string) (args : list fmt_arg)
  : string * nat :=
  let full := format pat args in
  (truncate (size - 1) full, strlen full).

End CStr.

Import CStr.

(** ** Effects: a trace of library calls, and undefined behaviour *)

(** [INFO] and [DEBUG] are [slurm_debug], [ERROR] is [slurm_error]. *)
Inductive level : Type := Debug | Error.

Inductive event : Type :=
| Log (l : level) (msg : string)
| Popen (cmd : string)
| Fscanf
| Pclose
| FreeJobInfo.

(** What a call comes to: it returns, or it runs into undefined behaviour
    (a null pointer handed to [strlen], [fscanf] or [popen]). *)
Inductive outcome (A : Type) : Type :=
| Ret (a : A)
| Fault.

Arguments Ret {A} a.
Arguments Fault {A}.

(** A computation: the events it emitted, oldest first, and its outcome. *)
Definition M (A : Type) : Type := list event * outcome A.

Definition ret {A} (a : A) : M A := ([], Ret a).

Definition fault {A} : M A := ([], Fault).

Definition bind {A B} (m : M A) (k : A -> M B) : M B :=
  match m with
  | (t, Ret a) => let (t', r) := k a in ((t ++ t')%list, r)
  | (t, Fault) => (t, Fault)
  end.

Definition emit (e : event) : M unit := ([e], Ret tt).

Notation "x <- m ;; k" := (bind m (fun x => k))
  (at level 61, m at next level, right associativity).
Notation "m ;; k" := (bind m (fun _ => k))
  (at level 61, right associativity).

Definition trace {A} (m : M A) : list event := fst m.
Definition result {A} (m : M A) : outcome A := snd m.

Definition INFO (msg : string) : M unit := emit (Log Debug msg).
Definition ERROR (msg : string) : M unit := emit (Log Error msg).

(** ** Slurm's data and the plugin's surroundings *)

(** The fields of [job_info_t] the plugin reads. *)
Record job_info_t : Type := {
  nodes : option string;
  user_id : N
}.

Record job_info_msg_t : Type := {
  record_count : N;
  job_array : list job_info_t
}.

(** Everything the hooks ask of their surroundings. *)
Record World : Type := {
  (** [spank_remote(sp)] *)
  spank_remote : bool;
  (** [spank_get_item(sp, S_JOB_ID, ..)]: [None] unless [ESPANK_SUCCESS] *)
  S_JOB_ID : option N;
  (** [spank_get_item(sp, S_JOB_STEPID, ..)] *)
  S_JOB_STEPID : option N;
  (** [slurm_load_job]: its status and the buffer it fills in *)
  slurm_load_job : N -> Z * job_info_msg_t;
  (** [slurm_hostlist_create]: the host names of a compact node list, in
      order; [slurm_hostlist_shift] takes them from the front *)
  slurm_hostlist_create : string -> list string;
  (** whether [malloc] returns a buffer *)
  malloc_ok : bool;
  (** [popen(cmd, "r")]: [None] for a null stream, else everything the
      child writes to its standard output *)
  popen_out : string -> option string
}.

(** [slurm_hostlist_shift]: the first host, [NULL] on an empty list. *)
Definition slurm_hostlist_shift (hl : list string) : option string :=
  match hl with
  | [] => None
  | h :: _ => Some h
  end.

(** ** Configuration: the three static pointers *)

Record Config : Type := {
  ssh_cmd : option string;
  ssh_args : option string;
  helpertask_args : option string
}.

(** The initialisers of the three statics: all [NULL]. *)
Definition config_init : Config :=
  {| ssh_cmd := None; ssh_args := None; helpertask_args := None |}.

Definition STUNNEL_LIBEXEC_PROG : string := "/usr/libexec/stunnel".
Definition DEFAULT_SSH_CMD : string := "ssh".
Definition DEFAULT_SSH_ARGS : string := "".
Definition DEFAULT_HELPERTASK_ARGS : string := "".

(** [(p == NULL) ? dflt : p] *)
Definition or_default (p : option string) (dflt : string) : string :=
  match p with
  | None => dflt
  | Some s => s
  end.

(** The loop over the copy that writes a space over every bar: it runs
    to the terminating zero, and not at all on a null pointer. *)
Fixpoint pipes_to_spaces (s : string) : string :=
  match s with
  | EmptyString => EmptyString
  | String c s' =>
      String (if Ascii.eqb c "|" then " "%char else c) (pipes_to_spaces s')
  end.

(** [strdup(elt + n)] followed by the loop above; [dup_ok] tells whether
    [strdup] returned a copy. *)
Definition dup_value (dup_ok : bool) (n : nat) (elt : string) : option string :=
  if dup_ok then Some (pipes_to_spaces (advance n elt)) else None.

(** One turn of the loop of [__stunnel_init_config] on the token [elt]. *)
Definition init_config_step (dup_ok : bool) (cfg : Config) (elt : string)
  : Config :=
  if strncmp_eq 8 elt "ssh_cmd=" then
    {| ssh_cmd := dup_value dup_ok 8 elt;
       ssh_args := ssh_args cfg;
       helpertask_args := helpertask_args cfg |}
  else if strncmp_eq 9 elt "ssh_args=" then
    {| ssh_cmd := ssh_cmd cfg;
       ssh_args := dup_value dup_ok 9 elt;
       helpertask_args := helpertask_args cfg |}
  else if strncmp_eq 16 elt "helpertask_args=" then
    {| ssh_cmd := ssh_cmd cfg;
       ssh_args := ssh_args cfg;
       helpertask_args := dup_value dup_ok 16 elt |}
  else cfg.

(** [__stunnel_init_config(sp, ac, av)]: [av] holds the [ac] tokens;
    [dup_ok i] tells whether the [strdup] made for token [i] succeeds. *)
Fixpoint init_config_from (dup_ok : nat -> bool) (i : nat) (cfg : Config)
  (av : list string) : Config :=
  match av with
  | [] => cfg
  | elt :: av' =>
      init_config_from dup_ok (S i) (init_config_step (dup_ok i) cfg elt) av'
  end.

Definition __stunnel_init_config (dup_ok : nat -> bool) (cfg : Config)
  (av : list string) : Config :=
  init_config_from dup_ok 0 cfg av.

(** ** The launcher *)

Definition connect_pattern : string :=
  STUNNEL_LIBEXEC_PROG ++ " -t %s -i %u.%u -cgw -s " ++ DQ ++ "%s" ++ DQ
    ++ " -o " ++ DQ ++ "%s" ++ DQ ++ " 2>/dev/null %s &".

Definition connect_args (cfg : Config) (node : string) (jobid stepid : N)
  : list fmt_arg :=
  [ ArgS node; ArgU jobid; ArgU stepid;
    ArgS (or_default (ssh_cmd cfg) DEFAULT_SSH_CMD);
    ArgS (or_default (ssh_args cfg) DEFAULT_SSH_ARGS);
    ArgS (or_default (helpertask_args cfg) DEFAULT_HELPERTASK_ARGS) ].

Definition connect_length (cfg : Config) (node : string) : nat :=
  strlen connect_pattern + strlen node + 128
  + strlen (or_default (ssh_cmd cfg) DEFAULT_SSH_CMD)
  + strlen (or_default (ssh_args cfg) DEFAULT_SSH_ARGS)
  + strlen (or_default (helpertask_args cfg) DEFAULT_HELPERTASK_ARGS).

(** The command [_connect_node] leaves in [expc_cmd]. *)
Definition connect_cmd (cfg : Config) (node : string) (jobid stepid : N)
  : string :=
  fst (snprintf (connect_length cfg node) connect_pattern
         (connect_args cfg node jobid stepid)).

(** [_connect_node(node, jobid, stepid)]; its [status] starts at [-1]. *)
Definition _connect_node (w : World) (cfg : Config) (node : option string)
  (jobid stepid : N) : M Z :=
  match node with
  | None => fault
  | Some node =>
      if malloc_ok w then
        let expc_cmd := connect_cmd cfg node jobid stepid in
        INFO ("tunnel: interactive mode : executing " ++ expc_cmd) ;;
        emit (Popen expc_cmd) ;;
        match popen_out w expc_cmd with
        | None => fault
        | Some out =>
            emit Fscanf ;;
            match fscanf_255s out with
            | None =>
                ERROR ("tunnel: unable to connect node " ++ node) ;;
                emit Pclose ;;
                ret (-1)%Z
            | Some forward =>
                INFO ("tunnel: forward is " ++ forward ++ " on node " ++ node) ;;
                emit Pclose ;;
                ret 0%Z
            end
        end
      else ret (-1)%Z
  end.

(** [_stunnel_connect_nodes(nodes, jobid, stepid)]: the status of
    [_connect_node] is dropped. *)
Definition _stunnel_connect_nodes (w : World) (cfg : Config) (nodes : string)
  (jobid stepid : N) : M Z :=
  let hlist := slurm_hostlist_create w nodes in
  let host := slurm_hostlist_shift hlist in
  _connect_node w cfg host jobid stepid ;;
  ret 0%Z.

(** ** The hooks *)

(** [slurm_spank_local_user_init]. *)
Definition slurm_spank_local_user_init (w : World) (cfg : Config) : M Z :=
  match S_JOB_ID w with
  | None => ret (-1)%Z
  | Some jobid =>
      match S_JOB_STEPID w with
      | None => ret (-1)%Z
      | Some stepid =>
          let (status, job_buffer_ptr) := slurm_load_job w jobid in
          if negb (status =? 0)%Z then
            ERROR "stunnel: unable to get job infos" ;;
            ret (-3)%Z
          else
            status <-
              (if negb (record_count job_buffer_ptr =? 1)%N then
                 ERROR "stunnel: job infos are invalid" ;;
                 ret (-4)%Z
               else
                 match job_array job_buffer_ptr with
                 | [] => fault
                 | job_ptr :: _ =>
                     match nodes job_ptr with
                     | None =>
                         ERROR "stunnel: job has no allocated nodes defined" ;;
                         ret (-5)%Z
                     | Some ns => _stunnel_connect_nodes w cfg ns jobid stepid
                     end
                 end) ;;
            emit FreeJobInfo ;;
            ret status
      end
  end.

(** The pattern of the exit hook.  The macro [X11_LIBEXEC_PROG] it starts
    with is defined nowhere in the file: it is a parameter here. *)
Definition exit_pattern (X11_LIBEXEC_PROG : string) : string :=
  X11_LIBEXEC_PROG ++ " -i %u.%u -r 2>/dev/null".

(** [slurm_spank_exit].  When [malloc] returns no buffer the test before
    the error message is false and the null pointer goes to [popen]. *)
Definition slurm_spank_exit (X11_LIBEXEC_PROG : string) (w : World) : M Z :=
  if negb (spank_remote w) then ret 0%Z
  else
    match S_JOB_ID w with
    | None => ret (-1)%Z
    | Some jobid =>
        match S_JOB_STEPID w with
        | None => ret (-1)%Z
        | Some stepid =>
            let expc_pattern := exit_pattern X11_LIBEXEC_PROG in
            let expc_length := strlen expc_pattern + 128 in
            let printed :=
              snprintf expc_length expc_pattern [ArgU jobid; ArgU stepid] in
            (if malloc_ok w then
               if (expc_length <=? snd printed)%nat then
                 ERROR "x11: error while creating remove reference cmd"
               else
                 let expc_cmd := fst printed in
                 emit (Popen expc_cmd) ;;
                 match popen_out w expc_cmd with
                 | None =>
                     ERROR ("x11: unable to exec remove cmd '" ++ expc_cmd ++ "'")
                 | Some _ => emit Pclose
                 end
             else fault) ;;
            ret 0%Z
        end
    end.

(** ** The [--tunnel] option *)

Module TunnelOption.

Inductive OptionError : Type := InvalidFormat.

Inductive Result (A E : Type) : Type :=
| Ok (a : A)
| Err (e : E).

Arguments Ok {A E} a.
Arguments Err {A E} e.

(** A pair of ports: the submission host's, the execution host's. *)
Definition TunnelSpec : Type := list (N * N).

(** Modelled from the spec: a port is a non-empty token of digits whose
    value lies from 1 to 65535. *)
Definition parse_port (tok : string) : option N :=
  match tok with
  | EmptyString => None
  | _ =>
      if all_digits tok then
        let v := dec_value tok in
        if (N.leb 1 v && N.leb v 65535)%N then Some v else None
      else None
  end.

(** Modelled from the spec: a pair is exactly two ports around one
    colon. *)
Definition parse_pair (entry : string) : option (N * N) :=
  match split_on ":" entry with
  | [a; b] =>
      match parse_port a, parse_port b with
      | Some x, Some y => Some (x, y)
      | _, _ => None
      end
  | _ => None
  end.

(** Modelled from the spec: every entry has to be a pair; the pairs come
    out in the order of the entries. *)
Fixpoint parse_pairs (entries : list string) : option TunnelSpec :=
  match entries with
  | [] => Some []
  | e :: es =>
      match parse_pair e, parse_pairs es with
      | Some p, Some ps => Some (p :: ps)
      | _, _ => None
      end
  end.

(** Modelled from the spec: [_tunnel_opt_process], the callback of the
    [--tunnel] option, is declared and entered in [spank_opts], and the
    file holds no definition of it.  This is the parser of the design
    document: pairs are separated by commas, a pair is two tokens of
    digits around one colon, and both are ports from 1 to 65535. *)
Definition parseTunnelOption (optionValue : option string)
  : Result TunnelSpec OptionError :=
  match optionValue with
  | None => Err InvalidFormat
  | Some v =>
      match parse_pairs (split_on "," v) with
      | Some spec => Ok spec
      | None => Err InvalidFormat
      end
  end.

(** Modelled from the spec: the status the callback hands back to the
    option parser, zero for a value that parses and [-1] otherwise. *)
Definition _tunnel_opt_process (val : Z) (optarg : option string)
  (remote : Z) : Z :=
  match parseTunnelOption optarg with
  | Ok _ => 0%Z
  | Err _ => (-1)%Z
  end.

(** What the design document asks of a token and of an entry, stated
    without the parser. *)
Definition port_token (tok : string) (p : N) : Prop :=
  tok <> EmptyString /\
  (forall c, mem c tok = true -> is_digit c = true) /\
  dec_value tok = p /\ (1 <= p <= 65535)%N.

Definition pair_entry (entry : string) (p : N * N) : Prop :=
  exists a b,
    split_on ":" entry = [a; b] /\ port_token a (fst p) /\ port_token b (snd p).

Definition well_formed (entry : string) : Prop :=
  exists p, pair_entry entry p.

End TunnelOption.

(** ** Auxiliary notions used to state the properties *)

(** A stand-in for Slurm's host list parser on node lists without ranges:
    the names between the commas, and no name at all for the empty
    string. *)
Definition comma_hostlist (s : string) : list string :=
  match s with
  | EmptyString => []
  | _ => split_on "," s
  end.

(** The number of characters of [s] that stand outside double quotes and
    are one of the shell's control operators [;], [&] and [|].  [q] tells
    whether the scan is inside double quotes. *)
Fixpoint unquoted_ops (q : bool) (s : string) : nat :=
  match s with
  | EmptyString => 0
  | String c s' =>
      if Ascii.eqb c dquote then unquoted_ops (negb q) s'
      else if negb q && (Ascii.eqb c ";" || Ascii.eqb c "&" || Ascii.eqb c "|")
           then S (unquoted_ops q s')
           else unquoted_ops q s'
  end.

(** A forwarding directive for the pair [p] names both of its ports. *)
Definition names_pair (cmd : string) (p : N * N) : bool :=
  occurs (print_u32 (fst p)) cmd && occurs (print_u32 (snd p)) cmd.

(** The events of a trace that start a process. *)
Fixpoint popens (t : list event) : list string :=
  match t with
  | [] => []
  | Popen c :: t' => c :: popens t'
  | _ :: t' => popens t'
  end.


(** The error messages of a trace. *)
Fixpoint errors (t : list event) : list string :=
  match t with
  | [] => []
  | Log Error m :: t' => m :: errors t'
  | _ :: t' => errors t'
  end.

(** The value the configuration tokens give a key: what follows the key
    in the last token that starts with it, bars written as spaces. *)
Fixpoint last_value (key : string) (av : list string) : option string :=
  match av with
  | [] => None
  | elt :: av' =>
      match last_value key av' with
      | Some v => Some v
      | None =>
          if String.prefix key elt
          then Some (pipes_to_spaces (advance (String.length key) elt))
          else None
      end
  end.

(** The surroundings of the end-to-end scenario of the design document:
    job 100, step 0, one job record whose node list is [nodes], memory at
    hand, and a helper program whose stream is [stream]. *)
Definition scenario (remote : bool) (nodes : option string)
  (stream : option string) : World :=
  {| spank_remote := remote;
     S_JOB_ID := Some 100%N;
     S_JOB_STEPID := Some 0%N;
     slurm_load_job := fun _ =>
       (0%Z, {| record_count := 1;
                job_array := [ {| nodes := nodes; user_id := 1000 |} ] |});
     slurm_hostlist_create := comma_hostlist;
     malloc_ok := true;
     popen_out := fun _ => stream |}.

(** The same, with a scheduler that answers with [count] records. *)
Definition scenario_records (count : N) (records : list job_info_t) : World :=
  {| spank_remote := false;
     S_JOB_ID := Some 100%N;
     S_JOB_STEPID := Some 0%N;
     slurm_load_job := fun _ =>
       (0%Z, {| record_count := count; job_array := records |});
     slurm_hostlist_create := comma_hostlist;
     malloc_ok := true;
     popen_out := fun _ => Some "54321" |}.

(** ** The X11 set-up the file carries along

    The functions below are the part of the file that still belongs to
    the X11 plugin it was written from.  They use an integer variable
    [x11_mode] and constants [X11_MODE_...] that the file declares
    nowhere: the constants are parameters here, and [x11_mode] is passed
    in and out.  The job's environment is the one variable the functions
    touch, [DISPLAY], passed in and out as well. *)

Record X11Modes : Type := {
  X11_MODE_NONE : Z;
  X11_MODE_FIRST : Z;
  X11_MODE_LAST : Z;
  X11_MODE_ALL : Z;
  X11_MODE_BATCH : Z
}.

(** [_x11_opt_process(val, optarg, remote)]: the value it leaves in
    [x11_mode], and its status. *)
Definition _x11_opt_process (m : X11Modes) (x11_mode : Z)
  (optarg : option string) : M (Z * Z) :=
  match optarg with
  | None => ret (X11_MODE_FIRST m, 0%Z)
  | Some optarg =>
      let x11_mode :=
        if strncmp_eq 6 optarg "first" then X11_MODE_FIRST m
        else if strncmp_eq 5 optarg "last" then X11_MODE_LAST m
        else if strncmp_eq 4 optarg "all" then X11_MODE_ALL m
        else if strncmp_eq 5 optarg "batch" then X11_MODE_BATCH m
        else x11_mode in
      if (x11_mode =? X11_MODE_NONE m)%Z then
        ERROR ("Bad value for --x11: " ++ optarg) ;;
        ret (x11_mode, (-1)%Z)
      else ret (x11_mode, 0%Z)
  end.

(** The fields of [job_info_t] the batch set-up reads: those above and
    [alloc_node]. *)
Record x11_job_info_t : Type := {
  x11_info : job_info_t;
  alloc_node : option string
}.

Record x11_job_info_msg_t : Type := {
  x11_record_count : N;
  x11_job_array : list x11_job_info_t
}.

(** What the X11 set-up asks of its surroundings, beyond the above. *)
Record X11World : Type := {
  x11_base : World;
  (** [slurm_load_job], with the records as the batch set-up reads them *)
  x11_load_job : N -> Z * x11_job_info_msg_t;
  (** whether [spank_setenv] returns [ESPANK_SUCCESS]; when it does not,
      the variable is left as it was *)
  x11_setenv_ok : bool;
  (** [gethostname]: [None] unless it returns 0 *)
  x11_hostname : option string;
  (** [getpwuid_r]: its status, and the name of the entry it found *)
  x11_getpwuid : N -> Z * option string;
  (** [strerror] *)
  x11_strerror : Z -> string
}.

(** [spank_getenv(sp, "DISPLAY", display, 256)]: the value, when there is
    one and it fits the buffer with its terminating zero. *)
Definition spank_getenv_256 (env : option string) : option string :=
  match env with
  | None => None
  | Some v => if (strlen v <? 256)%nat then Some v else None
  end.

Definition inter_pattern (X11_LIBEXEC_PROG : string) : string :=
  X11_LIBEXEC_PROG ++ " -i %u.%u -g".

(** [_x11_init_remote_inter(sp, jobid, stepid)]: its status and the value
    of [DISPLAY] afterwards.  The format of its [fscanf] ends in a line
    feed, which reads on over white space after the token and leaves the
    token and the count of conversions as they are. *)
Definition _x11_init_remote_inter (X11_LIBEXEC_PROG : string) (xw : X11World)
  (env : option string) (jobid stepid : N) : M (Z * option string) :=
  let w := x11_base xw in
  let cmd_pattern := inter_pattern X11_LIBEXEC_PROG in
  let cmd_length := strlen cmd_pattern + 128 in
  let printed := snprintf cmd_length cmd_pattern [ArgU jobid; ArgU stepid] in
  if negb (malloc_ok w) || (cmd_length <=? snd printed)%nat then
    ERROR "x11: error while building cmd" ;;
    ret ((-2)%Z, env)
  else
    let cmd := fst printed in
    emit (Popen cmd) ;;
    match popen_out w cmd with
    | Some out =>
        emit Fscanf ;;
        r <-
          match fscanf_255s out with
          | Some display =>
              if x11_setenv_ok xw then
                INFO ("x11: now using DISPLAY=" ++ display) ;;
                ret (0%Z, Some display)
              else
                ERROR "x11: unable to set DISPLAY in env" ;;
                ret ((-5)%Z, env)
          | None =>
              ERROR "x11: unable to read DISPLAY value" ;;
              ret ((-4)%Z, env)
          end ;;
        emit Pclose ;;
        ret r
    | None =>
        ERROR ("x11: unable to exec get cmd '" ++ cmd ++ "'") ;;
        ret ((-3)%Z, env)
    end.

Definition batch_pattern (X11_LIBEXEC_PROG : string) : string :=
  X11_LIBEXEC_PROG ++ " -u %s -s " ++ DQ ++ "%s" ++ DQ ++ " -o " ++ DQ
    ++ "%s" ++ DQ ++ " -f %s -d %s -t %s -i %u.%u -cwg %s &".

Definition batch_args (cfg : Config) (pw_name alloc display localhost : string)
  (jobid stepid : N) : list fmt_arg :=
  [ ArgS pw_name;
    ArgS (or_default (ssh_cmd cfg) DEFAULT_SSH_CMD);
    ArgS (or_default (ssh_args cfg) DEFAULT_SSH_ARGS);
    ArgS alloc; ArgS display; ArgS localhost; ArgU jobid; ArgU stepid;
    ArgS (or_default (helpertask_args cfg) DEFAULT_HELPERTASK_ARGS) ].

(** [_x11_init_remote_batch(sp, jobid, stepid)]: its status and the value
    of [DISPLAY] afterwards.  [snprintf] is reached with the buffer only,
    and then reads the user's name and the allocating node: a name that
    [getpwuid_r] did not fill in, or a null node, is undefined
    behaviour. *)
Definition _x11_init_remote_batch (X11_LIBEXEC_PROG : string) (xw : X11World)
  (cfg : Config) (env : option string) (jobid stepid : N)
  : M (Z * option string) :=
  let w := x11_base xw in
  match x11_hostname xw with
  | None => ret ((-20)%Z, env)
  | Some localhost =>
      match spank_getenv_256 env with
      | None =>
          ERROR "x11: unable to read batch step inherited DISPLAY value" ;;
          ret ((-1)%Z, env)
      | Some display =>
          let (status, job_buffer_ptr) := x11_load_job xw jobid in
          if negb (status =? 0)%Z then
            ERROR "x11: unable to get job infos" ;;
            ret ((-3)%Z, env)
          else
            r <-
              (if negb (x11_record_count job_buffer_ptr =? 1)%N then
                 ERROR "x11: job infos are invalid" ;;
                 ret ((-4)%Z, env)
               else
                 match x11_job_array job_buffer_ptr with
                 | [] => fault
                 | job_ptr :: _ =>
                     let uid := user_id (x11_info job_ptr) in
                     let (pwstatus, pw) := x11_getpwuid xw uid in
                     if negb (pwstatus =? 0)%Z then
                       ERROR ("x11: unable to get username for uid="
                                ++ print_u32 uid ++ " : "
                                ++ x11_strerror xw pwstatus) ;;
                       ret ((-10)%Z, env)
                     else if malloc_ok w then
                       match pw, alloc_node job_ptr with
                       | Some pw_name, Some alloc =>
                           let cmd_pattern := batch_pattern X11_LIBEXEC_PROG in
                           let cmd_length := strlen cmd_pattern + 128 in
                           let printed :=
                             snprintf cmd_length cmd_pattern
                               (batch_args cfg pw_name alloc display localhost
                                  jobid stepid) in
                           if (cmd_length <=? snd printed)%nat then
                             ERROR "x11: error while building cmd" ;;
                             ret ((-2)%Z, env)
                           else
                             let cmd := fst printed in
                             INFO ("x11: batch mode : executing " ++ cmd) ;;
                             emit (Popen cmd) ;;
                             match popen_out w cmd with
                             | Some out =>
                                 emit Fscanf ;;
                                 r <-
                                   match fscanf_255s out with
                                   | Some display =>
                                       if x11_setenv_ok xw then
                                         INFO ("x11: now using DISPLAY="
                                                 ++ display) ;;
                                         ret (0%Z, Some display)
                                       else
                                         ERROR "x11: unable to set DISPLAY in job env" ;;
                                         ret ((-5)%Z, env)
                                   | None =>
                                       ERROR "x11: unable to get a DISPLAY value" ;;
                                       ret ((-6)%Z, env)
                                   end ;;
                                 emit Pclose ;;
                                 ret r
                             | None =>
                                 ERROR ("x11: unable to exec get cmd '"
                                          ++ cmd ++ "'") ;;
                                 ret ((-3)%Z, env)
                             end
                       | _, _ => fault
                       end
                     else
                       ERROR "x11: error while building cmd" ;;
                       ret ((-2)%Z, env)
                 end) ;;
            emit FreeJobInfo ;;
            ret r
      end
  end.

(** [slurm_spank_user_init].  [SLURM_BATCH_SCRIPT] comes from Slurm's
    header.  In batch mode on a step that is not the batch script the
    function runs off its end without a [return]: its caller reads a
    value that was never given, which is undefined behaviour. *)
Definition slurm_spank_user_init (X11_LIBEXEC_PROG : string) (m : X11Modes)
  (SLURM_BATCH_SCRIPT : N) (xw : X11World) (cfg : Config) (x11_mode : Z)
  (env : option string) : M (Z * option string) :=
  let w := x11_base xw in
  if (x11_mode =? X11_MODE_NONE m)%Z then ret (0%Z, env)
  else
    match S_JOB_ID w with
    | None => ret ((-1)%Z, env)
    | Some jobid =>
        match S_JOB_STEPID w with
        | None => ret ((-1)%Z, env)
        | Some stepid =>
            if (stepid =? SLURM_BATCH_SCRIPT)%N
               && (x11_mode =? X11_MODE_BATCH m)%Z then
              _x11_init_remote_batch X11_LIBEXEC_PROG xw cfg env jobid stepid
            else if negb (x11_mode =? X11_MODE_BATCH m)%Z then
              _x11_init_remote_inter X11_LIBEXEC_PROG xw env jobid stepid
            else fault
        end
    end.

(** ** More notions used to state the properties *)

(** The streams a trace closes, and the job buffers it frees. *)
Definition pcloses (t : list event) : nat :=
  List.length (filter (fun e => match e with Pclose => true | _ => false end) t).

Definition frees (t : list event) : nat :=
  List.length
    (filter (fun e => match e with FreeJobInfo => true | _ => false end) t).

(** No field of [cfg] holds a value with a bar in it. *)
Definition bar_free (cfg : Config) : Prop :=
  forall v,
    ssh_cmd cfg = Some v \/ ssh_args cfg = Some v
    \/ helpertask_args cfg = Some v ->
    mem "|" v = false.

(** The values the X11 option takes: [first], [last] and [all] as they
    stand, and anything that starts with [batch]. *)
Definition x11_value (o : string) : bool :=
  String.eqb o "first" || String.eqb o "last" || String.eqb o "all"
  || String.prefix "batch" o.

(** One of the three keys starts the token. *)
Definition recognized (elt : string) : bool :=
  String.prefix "ssh_cmd=" elt || String.prefix "ssh_args=" elt
  || String.prefix "helpertask_args=" elt.

(** Modes numbered from 0, and surroundings of a step on the execution
    node for job 100, step 0, whose user is [user] and whose helper
    program writes [stream], for the properties at concrete inputs. *)
Definition modes_0_to_4 : X11Modes :=
  {| X11_MODE_NONE := 0; X11_MODE_FIRST := 1; X11_MODE_LAST := 2;
     X11_MODE_ALL := 3; X11_MODE_BATCH := 4 |}.

Definition x11_scenario (stream : option string) (user : option string)
  : X11World :=
  {| x11_base := scenario true (Some "nodeA,nodeB") stream;
     x11_load_job := fun _ =>
       (0%Z, {| x11_record_count := 1;
                x11_job_array :=
                  [ {| x11_info := {| nodes := Some "nodeA,nodeB";
                                      user_id := 1000 |};
                       alloc_node := Some "login1" |} ] |});
     x11_setenv_ok := true;
     x11_hostname := Some "nodeA";
     x11_getpwuid := fun _ => (0%Z, user);
     x11_strerror := fun _ => "error" |}.

(** A user name of 146 characters. *)
Definition long_name : string :=
  string_of_list_ascii (repeat "a"%char 146).

(** * Properties *)

(** ** Strings *)

Section StringFacts.

Lemma length_append (a b : string) :
  String.length (a ++ b) = String.length a + String.length b.
Proof.
  induction a as [|c a IH]; simpl; [reflexivity | now rewrite IH].
Qed.

Lemma append_assoc (a b c : string) : (a ++ b) ++ c = a ++ b ++ c.
Proof.
  induction a as [|x a IH]; simpl; [reflexivity | now rewrite IH].
Qed.

Lemma append_empty_r (a : string) : a ++ EmptyString = a.
Proof.
  induction a as [|x a IH]; simpl; [reflexivity | now rewrite IH].
Qed.

Lemma truncate_all (n : nat) (s : string) :
  String.length s <= n -> truncate n s = s.
Proof.
  revert s; induction n as [|n IH]; intros [|c s] Hlen; simpl in *;
    try reflexivity; try lia.
  rewrite IH by lia. reflexivity.
Qed.

Lemma prefix_refl_app (x b : string) : String.prefix x (x ++ b) = true.
Proof.
  induction x as [|c x IH]; simpl.
  - destruct b; reflexivity.
  - destruct (ascii_dec c c) as [_|Hne]; [exact IH | now elim Hne].
Qed.

Lemma occurs_unfold (x t : string) :
  occurs x t =
  String.prefix x t ||
  match t with
  | EmptyString => false
  | String _ t' => occurs x t'
  end.
Proof. destruct t; reflexivity. Qed.

Lemma occurs_here (x b : string) : occurs x (x ++ b) = true.
Proof. rewrite occurs_unfold, prefix_refl_app. reflexivity. Qed.

Lemma occurs_app (a x b : string) : occurs x (a ++ x ++ b) = true.
Proof.
  induction a as [|c a IH]; simpl.
  - apply occurs_here.
  - rewrite IH. apply orb_true_r.
Qed.

Lemma occurs_in (x t a b : string) : t = a ++ x ++ b -> occurs x t = true.
Proof. intros ->. apply occurs_app. Qed.

Lemma strncmp_eq_prefix (key elt : string) :
  strncmp_eq (String.length key) elt key = String.prefix key elt.
Proof.
  revert elt; induction key as [|k key IH]; intros [|c elt]; simpl;
    try reflexivity.
  rewrite IH. destruct (ascii_dec k c) as [->|Hne].
  - now rewrite Ascii.eqb_refl.
  - destruct (Ascii.eqb_spec c k) as [->|_]; [now elim Hne | reflexivity].
Qed.

Lemma prefix_split (key elt : string) :
  String.prefix key elt = true ->
  elt = key ++ advance (String.length key) elt.
Proof.
  revert elt; induction key as [|k key IH]; intros elt H; simpl.
  - reflexivity.
  - destruct elt as [|c elt]; simpl in H; [discriminate|].
    destruct (ascii_dec k c) as [->|]; [|discriminate].
    now rewrite <- IH.
Qed.


End StringFacts.

(** ** Decimal output *)

Section Decimal.

Lemma dec_go_length (fuel : nat) :
  forall n acc,
    String.length (dec_go fuel n acc) <= fuel + String.length acc.
Proof.
  induction fuel as [|f IH]; intros n acc; simpl; [lia|].
  destruct (n / 10 =? 0)%N; simpl; [lia|].
  specialize (IH (n / 10)%N (String (digit_char (n mod 10)) acc)).
  simpl in IH. lia.
Qed.

Lemma print_u32_length (n : N) : String.length (print_u32 n) <= 10.
Proof.
  unfold print_u32.
  exact (dec_go_length 10 (n mod 2 ^ 32)%N EmptyString).
Qed.

Lemma digit_char_value (d : N) :
  (d < 10)%N -> (N_of_ascii (digit_char d) - 48 = d)%N.
Proof.
  intros H. unfold digit_char.
  rewrite N_ascii_embedding by lia. lia.
Qed.

Lemma digit_char_is_digit (d : N) :
  (d < 10)%N -> is_digit (digit_char d) = true.
Proof.
  intros H. unfold is_digit, digit_char.
  rewrite N_ascii_embedding by lia.
  apply andb_true_iff; split; apply N.leb_le; lia.
Qed.

Lemma dec_value_from_app (s t : string) :
  forall a, dec_value_from a (s ++ t) = dec_value_from (dec_value_from a s) t.
Proof.
  induction s as [|c s IH]; intros a; simpl; [reflexivity | apply IH].
Qed.

(** The digits [dec_go] writes are those of [n], in front of [acc]. *)
Lemma dec_go_digits (fuel : nat) :
  forall n acc,
    (n < 10 ^ N.of_nat fuel)%N ->
    exists d,
      dec_go fuel n acc = d ++ acc /\
      all_digits d = true /\
      forall a,
        dec_value_from a d = (a * 10 ^ N.of_nat (String.length d) + n)%N.
Proof.
  induction fuel as [|f IH]; intros n acc Hn.
  - exists EmptyString. change (N.of_nat 0) with 0%N in Hn.
    rewrite N.pow_0_r in Hn. repeat split.
    intros a. cbn [dec_value_from String.length].
    change (N.of_nat 0) with 0%N. rewrite N.pow_0_r. lia.
  - assert (Hd : (n mod 10 < 10)%N) by (apply N.mod_lt; discriminate).
    assert (Hn' : (n = 10 * (n / 10) + n mod 10)%N)
      by (apply N.div_mod; discriminate).
    cbn [dec_go]. destruct (n / 10 =? 0)%N eqn:E.
    + apply N.eqb_eq in E.
      exists (String (digit_char (n mod 10)) EmptyString).
      split; [reflexivity|]. split.
      * cbn [all_digits]. now rewrite digit_char_is_digit.
      * intros a. cbn [dec_value_from String.length].
        rewrite digit_char_value by assumption.
        change (N.of_nat 1) with 1%N. rewrite N.pow_1_r. lia.
    + assert (Hq : (n / 10 < 10 ^ N.of_nat f)%N).
      { apply N.Div0.div_lt_upper_bound.
        rewrite <- N.pow_succ_r', <- Nnat.Nat2N.inj_succ. exact Hn. }
      destruct (IH (n / 10)%N (String (digit_char (n mod 10)) acc) Hq)
        as (d & Hgo & Hdig & Hval).
      exists (d ++ String (digit_char (n mod 10)) EmptyString).
      split; [rewrite Hgo, append_assoc; reflexivity|]. split.
      * clear - Hdig Hd. induction d as [|c d IHd]; cbn [all_digits append] in *.
        -- now rewrite digit_char_is_digit.
        -- apply andb_true_iff in Hdig as [Hc Hr].
           rewrite Hc. now apply IHd.
      * intros a. rewrite dec_value_from_app, Hval.
        cbn [dec_value_from].
        rewrite digit_char_value by assumption.
        rewrite length_append. cbn [String.length].
        rewrite Nnat.Nat2N.inj_add. change (N.of_nat 1) with 1%N.
        rewrite N.pow_add_r, N.pow_1_r. lia.
Qed.

(** [%u] writes digits that read back as the 32-bit value. *)
Lemma print_u32_value (n : N) :
  all_digits (print_u32 n) = true /\
  dec_value (print_u32 n) = (n mod 2 ^ 32)%N.
Proof.
  unfold print_u32, dec_value.
  assert (Hn : (n mod 2 ^ 32 < 10 ^ N.of_nat 10)%N).
  { assert (n mod 2 ^ 32 < 2 ^ 32)%N by (apply N.mod_lt; discriminate).
    assert (2 ^ 32 < 10 ^ N.of_nat 10)%N by reflexivity. lia. }
  destruct (dec_go_digits 10 _ EmptyString Hn) as (d & Hgo & Hdig & Hval).
  rewrite Hgo, append_empty_r. split; [exact Hdig|].
  rewrite Hval. lia.
Qed.

End Decimal.

(** ** Formats and the two command lines *)

Section Commands.

Lemma format_plain_prefix (p q : string) (args : list fmt_arg) :
  mem "%" p = false -> format (p ++ q) args = p ++ format q args.
Proof.
  induction p as [|c p IH]; intros Hp; [reflexivity|].
  cbn [mem] in Hp. apply orb_false_iff in Hp as [Hc Hp].
  rewrite Ascii.eqb_sym in Hc.
  cbn [append format]. rewrite Hc, IH by exact Hp. reflexivity.
Qed.

(** [snprintf] leaves the whole output in a buffer that is longer. *)
Lemma snprintf_fits (size : nat) (pat : string) (args : list fmt_arg) :
  String.length (format pat args) < size ->
  snprintf size pat args = (format pat args, String.length (format pat args)).
Proof.
  intros H. unfold snprintf, strlen. rewrite truncate_all by lia. reflexivity.
Qed.

Lemma connect_format (cfg : Config) (node : string) (jobid stepid : N) :
  format connect_pattern (connect_args cfg node jobid stepid) =
  STUNNEL_LIBEXEC_PROG ++ " -t " ++ node
    ++ " -i " ++ print_u32 jobid ++ "." ++ print_u32 stepid
    ++ " -cgw -s " ++ DQ ++ or_default (ssh_cmd cfg) DEFAULT_SSH_CMD ++ DQ
    ++ " -o " ++ DQ ++ or_default (ssh_args cfg) DEFAULT_SSH_ARGS ++ DQ
    ++ " 2>/dev/null "
    ++ or_default (helpertask_args cfg) DEFAULT_HELPERTASK_ARGS ++ " &".
Proof. reflexivity. Qed.

(** The buffer of [_connect_node] is long enough: nothing is cut off. *)
Lemma connect_cmd_shape (cfg : Config) (node : string) (jobid stepid : N) :
  connect_cmd cfg node jobid stepid =
  STUNNEL_LIBEXEC_PROG ++ " -t " ++ node
    ++ " -i " ++ print_u32 jobid ++ "." ++ print_u32 stepid
    ++ " -cgw -s " ++ DQ ++ or_default (ssh_cmd cfg) DEFAULT_SSH_CMD ++ DQ
    ++ " -o " ++ DQ ++ or_default (ssh_args cfg) DEFAULT_SSH_ARGS ++ DQ
    ++ " 2>/dev/null "
    ++ or_default (helpertask_args cfg) DEFAULT_HELPERTASK_ARGS ++ " &".
Proof.
  unfold connect_cmd. rewrite snprintf_fits.
  - apply connect_format.
  - rewrite connect_format. unfold connect_length.
    change (strlen connect_pattern) with 73. unfold strlen.
    pose proof (print_u32_length jobid) as Hj.
    pose proof (print_u32_length stepid) as Hs.
    revert Hj Hs.
    generalize (print_u32 jobid) (print_u32 stepid)
      (or_default (ssh_cmd cfg) DEFAULT_SSH_CMD)
      (or_default (ssh_args cfg) DEFAULT_SSH_ARGS)
      (or_default (helpertask_args cfg) DEFAULT_HELPERTASK_ARGS).
    intros pj ps c a h Hj Hs.
    rewrite !length_append. simpl. lia.
Qed.

Lemma exit_format (prog : string) (jobid stepid : N) :
  mem "%" prog = false ->
  format (exit_pattern prog) [ArgU jobid; ArgU stepid] =
  prog ++ " -i " ++ print_u32 jobid ++ "." ++ print_u32 stepid
    ++ " -r 2>/dev/null".
Proof.
  intros H. unfold exit_pattern. rewrite format_plain_prefix by exact H.
  reflexivity.
Qed.

Lemma exit_snprintf (prog : string) (jobid stepid : N) :
  mem "%" prog = false ->
  let size := strlen (exit_pattern prog) + 128 in
  let printed := snprintf size (exit_pattern prog) [ArgU jobid; ArgU stepid] in
  fst printed =
    prog ++ " -i " ++ print_u32 jobid ++ "." ++ print_u32 stepid
      ++ " -r 2>/dev/null"
  /\ (size <=? snd printed)%nat = false.
Proof.
  intros H size printed.
  assert (Hlen : String.length
                   (format (exit_pattern prog) [ArgU jobid; ArgU stepid])
                 < size).
  { rewrite exit_format by exact H. unfold size, exit_pattern, strlen.
    pose proof (print_u32_length jobid) as Hj.
    pose proof (print_u32_length stepid) as Hs.
    revert Hj Hs. generalize (print_u32 jobid) (print_u32 stepid).
    intros pj ps Hj Hs. rewrite !length_append. simpl. lia. }
  unfold printed. rewrite snprintf_fits by exact Hlen. simpl fst; simpl snd.
  split; [apply exit_format, H | apply Nat.leb_gt, Hlen].
Qed.

End Commands.

(** ** Reading one token *)

Section Scanning.

Lemma take_nonspace_token (n : nat) :
  forall s,
    let tok := take_nonspace n s in
    String.length tok <= n /\
    (forall c, mem c tok = true -> isspace c = false) /\
    exists rest,
      s = tok ++ rest /\
      (String.length tok = n \/
       match rest with
       | EmptyString => True
       | String c _ => isspace c = true
       end).
Proof.
  induction n as [|n IH]; intros s; cbn zeta.
  - cbn [take_nonspace]. split; [apply Nat.le_refl|].
    split; [discriminate|]. exists s. split; [reflexivity | now left].
  - destruct s as [|c s]; cbn [take_nonspace].
    + split; [apply Nat.le_0_l|]. split; [discriminate|].
      exists EmptyString. split; [reflexivity | now right].
    + destruct (isspace c) eqn:Hc.
      * split; [apply Nat.le_0_l|]. split; [discriminate|].
        exists (String c s). split; [reflexivity | now right].
      * destruct (IH s) as (Hlen & Hns & rest & Hs & Hend).
        split; [cbn [String.length]; lia|]. split.
        -- intros d Hd. cbn [mem] in Hd.
           apply orb_true_iff in Hd as [Hd|Hd]; [|now apply Hns].
           apply Ascii.eqb_eq in Hd. now subst d.
        -- exists rest. split.
           ++ cbn [append]. now rewrite <- Hs.
           ++ destruct Hend as [Hend|Hend]; [left | now right].
              cbn [String.length]. now rewrite Hend.
Qed.

Lemma skip_space_blank (s : string) :
  skip_space s = EmptyString -> forall c, mem c s = true -> isspace c = true.
Proof.
  induction s as [|d s IH]; intros H c Hc; [discriminate|].
  cbn [skip_space] in H. destruct (isspace d) eqn:Hd; [|discriminate].
  cbn [mem] in Hc. apply orb_true_iff in Hc as [Hc|Hc].
  - apply Ascii.eqb_eq in Hc. now subst c.
  - now apply IH.
Qed.

Lemma skip_space_head (s : string) :
  match skip_space s with
  | EmptyString => True
  | String c _ => isspace c = false
  end.
Proof.
  induction s as [|d s IH]; [exact I|].
  cbn [skip_space]. destruct (isspace d) eqn:Hd; [exact IH | exact Hd].
Qed.

(** What [fscanf] stores: one token, white space before it skipped. *)
Lemma fscanf_255s_spec (out : string) :
  match fscanf_255s out with
  | Some tok =>
      1 <= String.length tok <= 255 /\
      (forall c, mem c tok = true -> isspace c = false) /\
      exists rest,
        skip_space out = tok ++ rest /\
        (String.length tok = 255 \/
         match rest with
         | EmptyString => True
         | String c _ => isspace c = true
         end)
  | None => forall c, mem c out = true -> isspace c = true
  end.
Proof.
  unfold fscanf_255s.
  destruct (take_nonspace_token 255 (skip_space out))
    as (Hlen & Hns & rest & Hs & Hend).
  destruct (take_nonspace 255 (skip_space out)) as [|c tok] eqn:E.
  - apply skip_space_blank.
    pose proof (skip_space_head out) as Hh.
    destruct (skip_space out) as [|d s']; [reflexivity|].
    cbn [take_nonspace] in E. rewrite Hh in E. discriminate.
  - split; [cbn [String.length] in *; lia|]. split; [exact Hns|].
    exists rest. split; assumption.
Qed.

End Scanning.

(** ** The launcher *)

Section Launcher.

Variables (w : World) (cfg : Config) (node : string) (jobid stepid : N).

Let cmd : string := connect_cmd cfg node jobid stepid.

(** The run of [_connect_node] on a node, by what its surroundings do. *)
Lemma connect_node_run :
  _connect_node w cfg (Some node) jobid stepid =
  if malloc_ok w then
    match popen_out w cmd with
    | None =>
        ([Log Debug ("tunnel: interactive mode : executing " ++ cmd);
          Popen cmd], Fault)
    | Some out =>
        match fscanf_255s out with
        | None =>
            ([Log Debug ("tunnel: interactive mode : executing " ++ cmd);
              Popen cmd; Fscanf;
              Log Error ("tunnel: unable to connect node " ++ node);
              Pclose], Ret (-1)%Z)
        | Some forward =>
            ([Log Debug ("tunnel: interactive mode : executing " ++ cmd);
              Popen cmd; Fscanf;
              Log Debug
                ("tunnel: forward is " ++ forward ++ " on node " ++ node);
              Pclose], Ret 0%Z)
        end
    end
  else ([], Ret (-1)%Z).
Proof.
  unfold _connect_node. fold cmd.
  destruct (malloc_ok w); [|reflexivity].
  destruct (popen_out w cmd) as [out|]; [|reflexivity].
  destruct (fscanf_255s out); reflexivity.
Qed.

(** C2 (as the code has it): for every launch that gets its buffer, the
    one command line handed to [popen] holds the helper program, the
    target node after [-t], the job id and the step id after [-i], the
    fixed flags [-cgw], the ssh command after [-s] and the ssh arguments
    after [-o] (the configured ones, or the defaults when unset), and the
    helper-task arguments (or the default) before the final [&].  No
    tunnel specification enters the command line. *)
Theorem connect_node_command :
  malloc_ok w = true ->
  popens (trace (_connect_node w cfg (Some node) jobid stepid)) =
  [ STUNNEL_LIBEXEC_PROG ++ " -t " ++ node
      ++ " -i " ++ print_u32 jobid ++ "." ++ print_u32 stepid
      ++ " -cgw -s " ++ DQ ++ or_default (ssh_cmd cfg) DEFAULT_SSH_CMD ++ DQ
      ++ " -o " ++ DQ ++ or_default (ssh_args cfg) DEFAULT_SSH_ARGS ++ DQ
      ++ " 2>/dev/null "
      ++ or_default (helpertask_args cfg) DEFAULT_HELPERTASK_ARGS ++ " &" ].
Proof.
  intros Hm. rewrite connect_node_run, Hm, <- connect_cmd_shape. fold cmd.
  destruct (popen_out w cmd) as [out|]; [|reflexivity].
  destruct (fscanf_255s out); reflexivity.
Qed.

(** C4 (as the code has it): when the helper program's stream is open,
    the launcher reads one token of 1 to 255 characters, none of them
    white space, that ends at white space, at the end of the stream or
    at 255 characters.  If there is one it is logged as the forward and
    the launcher returns status 0; the token is neither read as a number
    nor returned.  If the stream holds nothing but white space the
    launcher logs an error and returns status [-1]. *)
Theorem connect_node_reads_one_token (out : string) :
  malloc_ok w = true ->
  popen_out w (connect_cmd cfg node jobid stepid) = Some out ->
  match fscanf_255s out with
  | Some forward =>
      _connect_node w cfg (Some node) jobid stepid =
        ([Log Debug ("tunnel: interactive mode : executing " ++ cmd);
          Popen cmd; Fscanf;
          Log Debug ("tunnel: forward is " ++ forward ++ " on node " ++ node);
          Pclose], Ret 0%Z)
      /\ 1 <= String.length forward <= 255
      /\ (forall c, mem c forward = true -> isspace c = false)
      /\ exists rest,
           skip_space out = forward ++ rest /\
           (String.length forward = 255 \/
            match rest with
            | EmptyString => True
            | String c _ => isspace c = true
            end)
  | None =>
      _connect_node w cfg (Some node) jobid stepid =
        ([Log Debug ("tunnel: interactive mode : executing " ++ cmd);
          Popen cmd; Fscanf;
          Log Error ("tunnel: unable to connect node " ++ node);
          Pclose], Ret (-1)%Z)
      /\ forall c, mem c out = true -> isspace c = true
  end.
Proof.
  intros Hm Hp. fold cmd in Hp. rewrite connect_node_run, Hm, Hp.
  pose proof (fscanf_255s_spec out) as Hscan.
  destruct (fscanf_255s out) as [forward|].
  - split; [reflexivity | exact Hscan].
  - split; [reflexivity | exact Hscan].
Qed.

(** C7 (the code at the failing input): when [popen] returns a null
    stream the launcher hands it to [fscanf]: it runs into undefined
    behaviour after starting nothing, and no error has been logged. *)
Theorem connect_node_popen_null :
  malloc_ok w = true ->
  popen_out w (connect_cmd cfg node jobid stepid) = None ->
  result (_connect_node w cfg (Some node) jobid stepid) = Fault
  /\ errors (trace (_connect_node w cfg (Some node) jobid stepid)) = [].
Proof.
  intros Hm Hp. fold cmd in Hp. rewrite connect_node_run, Hm, Hp.
  split; reflexivity.
Qed.

(** C5 (as the code has it): the node, the ssh command, the ssh
    arguments and the helper-task arguments stand in the command line
    exactly as they are, character for character; the pattern puts
    double quotes around the ssh command and the ssh arguments and
    nothing around the other two. *)
Theorem connect_cmd_verbatim :
  occurs (" -t " ++ node ++ " -i ") cmd = true
  /\ occurs (" -s " ++ DQ ++ or_default (ssh_cmd cfg) DEFAULT_SSH_CMD
               ++ DQ ++ " -o ") cmd = true
  /\ occurs (" -o " ++ DQ ++ or_default (ssh_args cfg) DEFAULT_SSH_ARGS
               ++ DQ ++ " 2>/dev/null ") cmd = true
  /\ occurs (" 2>/dev/null "
               ++ or_default (helpertask_args cfg) DEFAULT_HELPERTASK_ARGS
               ++ " &") cmd = true.
Proof.
  unfold cmd. rewrite connect_cmd_shape.
  set (c := or_default (ssh_cmd cfg) DEFAULT_SSH_CMD).
  set (a := or_default (ssh_args cfg) DEFAULT_SSH_ARGS).
  set (h := or_default (helpertask_args cfg) DEFAULT_HELPERTASK_ARGS).
  set (i := print_u32 jobid ++ "." ++ print_u32 stepid).
  repeat split.
  - apply (occurs_in _ _ STUNNEL_LIBEXEC_PROG
             (i ++ " -cgw -s " ++ DQ ++ c ++ DQ ++ " -o " ++ DQ ++ a
                ++ DQ ++ " 2>/dev/null " ++ h ++ " &")).
    unfold i. rewrite !append_assoc. reflexivity.
  - apply (occurs_in _ _
             (STUNNEL_LIBEXEC_PROG ++ " -t " ++ node ++ " -i " ++ i
                ++ " -cgw")
             (DQ ++ a ++ DQ ++ " 2>/dev/null " ++ h ++ " &")).
    unfold i. rewrite !append_assoc. reflexivity.
  - apply (occurs_in _ _
             (STUNNEL_LIBEXEC_PROG ++ " -t " ++ node ++ " -i " ++ i
                ++ " -cgw -s " ++ DQ ++ c ++ DQ)
             (h ++ " &")).
    unfold i. rewrite !append_assoc. reflexivity.
  - apply (occurs_in _ _
             (STUNNEL_LIBEXEC_PROG ++ " -t " ++ node ++ " -i " ++ i
                ++ " -cgw -s " ++ DQ ++ c ++ DQ ++ " -o " ++ DQ ++ a
                ++ DQ)
             EmptyString).
    unfold i. rewrite !append_assoc, ?append_empty_r. reflexivity.
Qed.

End Launcher.

(** ** Node selection and the local set-up hook *)

Section LocalSetup.

Variables (w : World) (cfg : Config).

(** The selector takes the first host of the list for the launcher. *)
Lemma connect_nodes_first (ns h : string) (hl : list string)
  (jobid stepid : N) :
  slurm_hostlist_create w ns = h :: hl ->
  _stunnel_connect_nodes w cfg ns jobid stepid =
  (_connect_node w cfg (Some h) jobid stepid ;; ret 0%Z).
Proof.
  intros H. unfold _stunnel_connect_nodes. rewrite H. reflexivity.
Qed.

(** C8 (the code at the failing input): on a node list without hosts the
    selector reports no error; the null host goes to the launcher, which
    runs into undefined behaviour at once. *)
Theorem connect_nodes_empty_list (ns : string) (jobid stepid : N) :
  slurm_hostlist_create w ns = [] ->
  _stunnel_connect_nodes w cfg ns jobid stepid = ([], Fault).
Proof.
  intros H. unfold _stunnel_connect_nodes. rewrite H. reflexivity.
Qed.

(** The status of the launcher never reaches the caller. *)
Lemma connect_nodes_status (ns : string) (jobid stepid : N) (status : Z) :
  let launch :=
    _connect_node w cfg
      (slurm_hostlist_shift (slurm_hostlist_create w ns)) jobid stepid in
  result launch = Ret status ->
  _stunnel_connect_nodes w cfg ns jobid stepid = (trace launch, Ret 0%Z).
Proof.
  intros launch H. unfold _stunnel_connect_nodes. fold launch.
  destruct launch as [t r]. cbn [result snd] in H. subst r.
  cbn [bind ret trace fst]. now rewrite app_nil_r.
Qed.

(** Without the job id or the step id the hook gives up at once. *)
Lemma local_user_init_no_ids :
  S_JOB_ID w = None \/ S_JOB_STEPID w = None ->
  slurm_spank_local_user_init w cfg = ([], Ret (-1)%Z).
Proof.
  unfold slurm_spank_local_user_init. intros [H|H]; rewrite H.
  - reflexivity.
  - now destruct (S_JOB_ID w).
Qed.

Variables (jobid stepid : N) (st : Z) (buf : job_info_msg_t).

Hypothesis Hjob : S_JOB_ID w = Some jobid.
Hypothesis Hstep : S_JOB_STEPID w = Some stepid.
Hypothesis Hload : slurm_load_job w jobid = (st, buf).

(** C3 (as the code has it): once the job and step ids are at hand, the
    hook returns [-3] when the job cannot be loaded, [-4] when the number
    of records is not one and [-5] when the record has no node list, each
    with its error message; and when the record has a node list and the
    launcher returns, whatever status the launcher returns, the hook
    returns 0 after the launcher's own log. *)
Theorem local_user_init_status :
  let r := slurm_spank_local_user_init w cfg in
  (st <> 0%Z ->
   r = ([Log Error "stunnel: unable to get job infos"], Ret (-3)%Z))
  /\ (st = 0%Z -> record_count buf <> 1%N ->
      r = ([Log Error "stunnel: job infos are invalid"; FreeJobInfo],
           Ret (-4)%Z))
  /\ (forall job rest,
        st = 0%Z -> record_count buf = 1%N -> job_array buf = job :: rest ->
        nodes job = None ->
        r = ([Log Error "stunnel: job has no allocated nodes defined";
              FreeJobInfo], Ret (-5)%Z))
  /\ (forall job rest ns status,
        st = 0%Z -> record_count buf = 1%N -> job_array buf = job :: rest ->
        nodes job = Some ns ->
        let launch :=
          _connect_node w cfg
            (slurm_hostlist_shift (slurm_hostlist_create w ns))
            jobid stepid in
        result launch = Ret status ->
        r = ((trace launch ++ [FreeJobInfo])%list, Ret 0%Z)).
Proof.
  intros r. unfold r, slurm_spank_local_user_init.
  rewrite Hjob, Hstep, Hload. repeat split.
  - intros Hst. apply Z.eqb_neq in Hst. rewrite Hst. reflexivity.
  - intros -> Hc. apply N.eqb_neq in Hc. rewrite Hc. reflexivity.
  - intros job rest -> Hc Ha Hn. rewrite Hc, Ha, Hn. reflexivity.
  - intros job rest ns status -> Hc Ha Hn Hl.
    rewrite Hc, Ha, Hn.
    rewrite (connect_nodes_status ns jobid stepid status Hl).
    reflexivity.
Qed.

(** C6 (the code at the failing input): a record whose node list is
    there and holds no host is not refused with [-5]; it reaches the
    launcher with a null host, and the hook runs into undefined
    behaviour without a message. *)
Theorem local_user_init_empty_node_list (job : job_info_t)
  (rest : list job_info_t) (ns : string) :
  st = 0%Z -> record_count buf = 1%N -> job_array buf = job :: rest ->
  nodes job = Some ns -> slurm_hostlist_create w ns = [] ->
  slurm_spank_local_user_init w cfg = ([], Fault).
Proof.
  intros -> Hc Ha Hn He. unfold slurm_spank_local_user_init.
  rewrite Hjob, Hstep, Hload, Hc, Ha, Hn.
  unfold _stunnel_connect_nodes. rewrite He. reflexivity.
Qed.

End LocalSetup.

(** ** The exit hook *)

Section ExitHook.

Variable X11_LIBEXEC_PROG : string.

(** The program's path holds no conversion of its own. *)
Hypothesis Hprog : mem "%" X11_LIBEXEC_PROG = false.

Variable w : World.

(** A null stream is reported here, as it is not in the launcher. *)
Lemma exit_popen_null (jobid stepid : N) :
  spank_remote w = true ->
  S_JOB_ID w = Some jobid -> S_JOB_STEPID w = Some stepid ->
  malloc_ok w = true ->
  (forall cmd, popen_out w cmd = None) ->
  result (slurm_spank_exit X11_LIBEXEC_PROG w) = Ret 0%Z
  /\ errors (trace (slurm_spank_exit X11_LIBEXEC_PROG w)) =
       [ "x11: unable to exec remove cmd '" ++ X11_LIBEXEC_PROG ++ " -i "
           ++ print_u32 jobid ++ "." ++ print_u32 stepid
           ++ " -r 2>/dev/null'" ].
Proof.
  intros Hr Hj Hs Hm Hp. unfold slurm_spank_exit.
  rewrite Hr, Hj, Hs, Hm. cbn [negb].
  destruct (exit_snprintf X11_LIBEXEC_PROG jobid stepid Hprog) as [Hc Hfit].
  cbn zeta in Hc, Hfit. rewrite Hfit, Hp, Hc. split; [reflexivity|].
  cbn [bind emit ERROR ret trace fst errors app]. f_equal.
  rewrite !append_assoc. reflexivity.
Qed.


End ExitHook.

(** ** Configuration *)

Section ConfigField.

(** One of the three fields: its key and its place in the record. *)
Variables (key : string) (get : Config -> option string).

Hypothesis get_step :
  forall cfg elt,
    get (init_config_step true cfg elt) =
    if String.prefix key elt
    then Some (pipes_to_spaces (advance (String.length key) elt))
    else get cfg.

Variable dup_ok : nat -> bool.

Hypothesis dup_always : forall i, dup_ok i = true.

Lemma field_after_load (av : list string) :
  forall i cfg,
    get (init_config_from dup_ok i cfg av) =
    match last_value key av with
    | Some v => Some v
    | None => get cfg
    end.
Proof.
  induction av as [|elt av IH]; intros i cfg; [reflexivity|].
  cbn [init_config_from last_value]. rewrite IH, dup_always.
  destruct (last_value key av); [reflexivity|].
  rewrite get_step. destruct (String.prefix key elt); reflexivity.
Qed.



End ConfigField.

Section Config.

Lemma keys_apart (elt : string) :
  (String.prefix "ssh_cmd=" elt = true ->
   String.prefix "ssh_args=" elt = false
   /\ String.prefix "helpertask_args=" elt = false)
  /\ (String.prefix "ssh_args=" elt = true ->
      String.prefix "helpertask_args=" elt = false).
Proof.
  split; intros H; apply prefix_split in H; rewrite H;
    [split|]; reflexivity.
Qed.

Lemma strncmp_key (key elt : string) (n : nat) :
  n = String.length key -> strncmp_eq n elt key = String.prefix key elt.
Proof. intros ->. apply strncmp_eq_prefix. Qed.

Lemma ssh_cmd_step (cfg : Config) (elt : string) :
  ssh_cmd (init_config_step true cfg elt) =
  if String.prefix "ssh_cmd=" elt
  then Some (pipes_to_spaces (advance (String.length "ssh_cmd=") elt))
  else ssh_cmd cfg.
Proof.
  unfold init_config_step.
  rewrite (strncmp_key "ssh_cmd=" elt 8 eq_refl),
    (strncmp_key "ssh_args=" elt 9 eq_refl),
    (strncmp_key "helpertask_args=" elt 16 eq_refl).
  destruct (String.prefix "ssh_cmd=" elt); [reflexivity|].
  destruct (String.prefix "ssh_args=" elt); [reflexivity|].
  destruct (String.prefix "helpertask_args=" elt); reflexivity.
Qed.

Lemma ssh_args_step (cfg : Config) (elt : string) :
  ssh_args (init_config_step true cfg elt) =
  if String.prefix "ssh_args=" elt
  then Some (pipes_to_spaces (advance (String.length "ssh_args=") elt))
  else ssh_args cfg.
Proof.
  unfold init_config_step.
  rewrite (strncmp_key "ssh_cmd=" elt 8 eq_refl),
    (strncmp_key "ssh_args=" elt 9 eq_refl),
    (strncmp_key "helpertask_args=" elt 16 eq_refl).
  destruct (keys_apart elt) as [Hc _].
  destruct (String.prefix "ssh_cmd=" elt).
  - destruct (Hc eq_refl) as [-> _]. reflexivity.
  - destruct (String.prefix "ssh_args=" elt); [reflexivity|].
    destruct (String.prefix "helpertask_args=" elt); reflexivity.
Qed.

Lemma helpertask_args_step (cfg : Config) (elt : string) :
  helpertask_args (init_config_step true cfg elt) =
  if String.prefix "helpertask_args=" elt
  then Some (pipes_to_spaces
               (advance (String.length "helpertask_args=") elt))
  else helpertask_args cfg.
Proof.
  unfold init_config_step.
  rewrite (strncmp_key "ssh_cmd=" elt 8 eq_refl),
    (strncmp_key "ssh_args=" elt 9 eq_refl),
    (strncmp_key "helpertask_args=" elt 16 eq_refl).
  destruct (keys_apart elt) as [Hc Ha].
  destruct (String.prefix "ssh_cmd=" elt).
  - destruct (Hc eq_refl) as [_ ->]. reflexivity.
  - destruct (String.prefix "ssh_args=" elt).
    + rewrite (Ha eq_refl). reflexivity.
    + destruct (String.prefix "helpertask_args=" elt); reflexivity.
Qed.

Variables (dup_ok : nat -> bool) (av : list string).

Hypothesis dup_always : forall i, dup_ok i = true.


End Config.

(** ** The [--tunnel] option *)

Section TunnelOptionFacts.

Import TunnelOption.

Lemma all_digits_mem (s : string) :
  all_digits s = true <-> (forall c, mem c s = true -> is_digit c = true).
Proof.
  induction s as [|d s IH]; cbn [all_digits mem].
  - split; [discriminate | reflexivity].
  - rewrite andb_true_iff, IH. split.
    + intros [Hd Hs] c Hc. apply orb_true_iff in Hc as [Hc|Hc].
      * apply Ascii.eqb_eq in Hc. now subst c.
      * now apply Hs.
    + intros H. split.
      * apply H. now rewrite Ascii.eqb_refl.
      * intros c Hc. apply H. rewrite Hc. apply orb_true_r.
Qed.

Lemma parse_port_spec (tok : string) (p : N) :
  parse_port tok = Some p <-> port_token tok p.
Proof.
  unfold parse_port, port_token. rewrite <- all_digits_mem.
  destruct tok as [|c tok].
  - split; [discriminate | intros [H _]; now elim H].
  - set (t := String c tok) in *.
    destruct (all_digits t).
    + destruct (N.leb 1 (dec_value t) && N.leb (dec_value t) 65535)%N eqn:E.
      * apply andb_true_iff in E as [E1 E2].
        apply N.leb_le in E1, E2. split.
        -- intros [= <-]. repeat split; try discriminate; assumption.
        -- intros (_ & _ & <- & _). reflexivity.
      * split; [discriminate|]. intros (_ & _ & <- & H1 & H2).
        apply N.leb_le in H1, H2. rewrite H1, H2 in E. discriminate.
    + split; [discriminate | intros (_ & H & _); discriminate].
Qed.

Lemma parse_pair_spec (entry : string) (p : N * N) :
  parse_pair entry = Some p <-> pair_entry entry p.
Proof.
  unfold parse_pair, pair_entry. split.
  - destruct (split_on ":" entry) as [|a [|b [|c l]]]; try discriminate.
    destruct (parse_port a) as [x|] eqn:Ea; [|discriminate].
    destruct (parse_port b) as [y|] eqn:Eb; [|discriminate].
    intros [= <-]. exists a, b. cbn [fst snd].
    split; [reflexivity|]. split; now apply parse_port_spec.
  - intros (a & b & -> & Ha & Hb).
    apply parse_port_spec in Ha, Hb. rewrite Ha, Hb.
    now destruct p.
Qed.

Lemma parse_pairs_spec (entries : list string) :
  forall spec,
    parse_pairs entries = Some spec <-> Forall2 pair_entry entries spec.
Proof.
  induction entries as [|e es IH]; intros spec; cbn [parse_pairs].
  - split; [intros [= <-]; constructor | intros H; now inversion H].
  - split.
    + destruct (parse_pair e) as [p|] eqn:Ep; [|discriminate].
      destruct (parse_pairs es) as [ps|] eqn:Eps; [|discriminate].
      intros [= <-]. constructor; [now apply parse_pair_spec | now apply IH].
    + intros H. inversion H as [|? p ? ps Hp Hps]; subst.
      apply parse_pair_spec in Hp. apply IH in Hps.
      now rewrite Hp, Hps.
Qed.

Lemma parse_pairs_all_well_formed (entries : list string) (spec : TunnelSpec) :
  Forall2 pair_entry entries spec -> Forall well_formed entries.
Proof.
  induction 1 as [|e p es ps Hp _ IH]; constructor; [now exists p | exact IH].
Qed.

(** C1: on the parser of the design document.  A value that parses
    gives one pair for each entry between commas, in order, and each
    entry is then two non-empty tokens of digits around one colon whose
    values lie from 1 to 65535.  A value with an entry that is not of
    this form, and the absent value, fail with [InvalidFormat]; no
    specification comes out, and the callback hands a non-zero status to
    the option parser. *)
Theorem tunnel_option_checked (v : string) (val remote : Z) :
  (forall spec,
     parseTunnelOption (Some v) = Ok spec ->
     Forall2 pair_entry (split_on "," v) spec
     /\ _tunnel_opt_process val (Some v) remote = 0%Z)
  /\ (Exists (fun entry => ~ well_formed entry) (split_on "," v) ->
      parseTunnelOption (Some v) = Err InvalidFormat
      /\ _tunnel_opt_process val (Some v) remote = (-1)%Z)
  /\ (parseTunnelOption None = Err InvalidFormat
      /\ _tunnel_opt_process val None remote = (-1)%Z).
Proof.
  unfold _tunnel_opt_process, parseTunnelOption.
  destruct (parse_pairs (split_on "," v)) as [spec|] eqn:E.
  - apply parse_pairs_spec in E. split; [|split].
    + intros s [= <-]. split; [exact E | reflexivity].
    + intros Hex. exfalso.
      apply parse_pairs_all_well_formed in E.
      apply Exists_exists in Hex as (e & Hin & Hbad).
      apply Hbad. rewrite Forall_forall in E. now apply E.
    + split; reflexivity.
  - split; [|split].
    + discriminate.
    + intros _. split; reflexivity.
    + split; reflexivity.
Qed.

(** Every entry is either of the form asked for or not: a value whose
    entries all are parses. *)
Lemma tunnel_option_accepts (v : string) :
  Forall well_formed (split_on "," v) ->
  exists spec, parseTunnelOption (Some v) = Ok spec.
Proof.
  intros H. unfold parseTunnelOption.
  assert (Hs : exists spec, parse_pairs (split_on "," v) = Some spec).
  { induction H as [|e es [p Hp] _ [ps IH]].
    - now exists [].
    - exists (p :: ps). cbn [parse_pairs].
      apply parse_pair_spec in Hp. now rewrite Hp, IH. }
  destruct Hs as [spec ->]. now exists spec.
Qed.

End TunnelOptionFacts.

(** ** The properties at concrete inputs *)

Section Instances.

Import TunnelOption.

Lemma tunnel_option_checked_witness :
  parseTunnelOption (Some "8080:80,22:70000") = Err InvalidFormat
  /\ _tunnel_opt_process 0 (Some "8080:80,22:70000") 0 = (-1)%Z.
Proof.
  apply (proj1 (proj2 (tunnel_option_checked "8080:80,22:70000" 0 0))).
  change (split_on "," "8080:80,22:70000") with ["8080:80"; "22:70000"].
  apply Exists_cons_tl, Exists_cons_hd.
  intros [p Hp]. apply parse_pair_spec in Hp. discriminate.
Defined.

Lemma connect_node_command_witness :
  malloc_ok (scenario false (Some "nodeA,nodeB") (Some "54321")) = true
  /\ popens
       (trace (_connect_node (scenario false (Some "nodeA,nodeB") (Some "54321"))
                 config_init (Some "nodeA") 100 0)) =
     [ STUNNEL_LIBEXEC_PROG ++ " -t nodeA -i 100.0 -cgw -s " ++ DQ ++ "ssh"
         ++ DQ ++ " -o " ++ DQ ++ DQ ++ " 2>/dev/null  &" ].
Proof.
  split; [reflexivity|].
  exact (connect_node_command
           (scenario false (Some "nodeA,nodeB") (Some "54321"))
           config_init "nodeA" 100 0 eq_refl).
Defined.

(** C2, as stated, fails: in the scenario of the design document, with
    the pair (8080, 80) asked for, the command line names neither port
    of the pair. *)
Lemma connect_node_no_forwarding_directive :
  exists cmd,
    popens
      (trace (_connect_node (scenario false (Some "nodeA,nodeB") (Some "54321"))
                config_init (Some "nodeA") 100 0)) = [cmd]
    /\ forallb (names_pair cmd) [(8080%N, 80%N)] = false.
Proof. eexists. split; [reflexivity | vm_compute; reflexivity]. Qed.

Lemma local_user_init_status_witness :
  result (slurm_spank_local_user_init
            (scenario false (Some "nodeA,nodeB") (Some "")) config_init)
    = Ret 0%Z
  /\ errors (trace (slurm_spank_local_user_init
                      (scenario false (Some "nodeA,nodeB") (Some ""))
                      config_init))
     = ["tunnel: unable to connect node nodeA"].
Proof.
  set (w := scenario false (Some "nodeA,nodeB") (Some "")).
  set (r := slurm_spank_local_user_init w config_init).
  pose proof (local_user_init_status w config_init 100 0 0%Z
                {| record_count := 1;
                   job_array := [ {| nodes := Some "nodeA,nodeB";
                                     user_id := 1000 |} ] |}
                eq_refl eq_refl eq_refl) as H.
  destruct H as (_ & _ & _ & H).
  specialize (H {| nodes := Some "nodeA,nodeB"; user_id := 1000 |} []
                "nodeA,nodeB" (-1)%Z eq_refl eq_refl eq_refl eq_refl eq_refl).
  unfold r. rewrite H. split; reflexivity.
Defined.

(** C3, as stated, fails: when the scheduler answers with no record the
    hook returns [-4], not success. *)
Lemma local_user_init_reports_failure :
  slurm_spank_local_user_init (scenario_records 0 []) config_init =
    ([Log Error "stunnel: job infos are invalid"; FreeJobInfo], Ret (-4)%Z)
  /\ Ret (-4)%Z <> Ret 0%Z.
Proof. split; [reflexivity | discriminate]. Qed.

Lemma connect_node_reads_one_token_witness :
  result (_connect_node
            (scenario false (Some "nodeA,nodeB") (Some "  54321 and more"))
            config_init (Some "nodeA") 100 0) = Ret 0%Z
  /\ errors (trace (_connect_node
                      (scenario false (Some "nodeA,nodeB")
                         (Some "  54321 and more"))
                      config_init (Some "nodeA") 100 0)) = [].
Proof.
  set (w := scenario false (Some "nodeA,nodeB") (Some "  54321 and more")).
  pose proof (connect_node_reads_one_token w config_init "nodeA" 100 0
                "  54321 and more" eq_refl eq_refl) as H.
  change (fscanf_255s "  54321 and more") with (Some "54321") in H.
  destruct H as [H _]. rewrite H. split; reflexivity.
Defined.

(** C4, as stated, fails: the helper program prints 54321, the token
    is read, and the launcher returns 0, not the port. *)
Lemma connect_node_returns_status_not_port :
  fscanf_255s "54321" = Some "54321"
  /\ dec_value "54321" = 54321%N
  /\ result (_connect_node
               (scenario false (Some "nodeA,nodeB") (Some "54321"))
               config_init (Some "nodeA") 100 0) = Ret 0%Z
  /\ result (_connect_node
               (scenario false (Some "nodeA,nodeB") (Some "54321"))
               config_init (Some "nodeA") 100 0) <> Ret 54321%Z.
Proof. repeat split; discriminate. Qed.

(** C5, as stated, fails: a node name, or an [ssh_cmd=] token, with a
    semicolon in it adds commands to the line, which otherwise has the
    one final [&] as its only control operator. *)
Lemma connect_cmd_not_escaped :
  unquoted_ops false (connect_cmd config_init "nodeA" 100 0) = 1
  /\ unquoted_ops false (connect_cmd config_init "n1;reboot" 100 0) = 2
  /\ occurs " -t n1;reboot -i " (connect_cmd config_init "n1;reboot" 100 0)
     = true
  /\ unquoted_ops false
       (connect_cmd
          (__stunnel_init_config (fun _ => true) config_init
             ["ssh_cmd=ssh" ++ DQ ++ ";reboot;" ++ DQ])
          "nodeA" 100 0) = 3.
Proof. repeat split; vm_compute; reflexivity. Qed.

Lemma local_user_init_empty_node_list_witness :
  slurm_spank_local_user_init (scenario false (Some "") (Some "54321"))
    config_init = ([], Fault).
Proof.
  exact (local_user_init_empty_node_list
           (scenario false (Some "") (Some "54321")) config_init 100 0 0%Z
           {| record_count := 1;
              job_array := [ {| nodes := Some ""; user_id := 1000 |} ] |}
           eq_refl eq_refl eq_refl
           {| nodes := Some ""; user_id := 1000 |} [] ""
           eq_refl eq_refl eq_refl eq_refl eq_refl).
Defined.

Lemma connect_node_popen_null_witness :
  result (_connect_node (scenario false (Some "nodeA,nodeB") None)
            config_init (Some "nodeA") 100 0) = Fault
  /\ errors (trace (_connect_node (scenario false (Some "nodeA,nodeB") None)
                      config_init (Some "nodeA") 100 0)) = [].
Proof.
  exact (connect_node_popen_null (scenario false (Some "nodeA,nodeB") None)
           config_init "nodeA" 100 0 eq_refl eq_refl).
Defined.

Lemma connect_nodes_empty_list_witness :
  _stunnel_connect_nodes (scenario false (Some "") (Some "54321"))
    config_init "" 100 0 = ([], Fault).
Proof.
  exact (connect_nodes_empty_list
           (scenario false (Some "") (Some "54321")) config_init "" 100 0
           eq_refl).
Defined.



End Instances.

(** * Further properties of the code *)

(** ** Loading the configuration *)

Section ConfigLoading.

Lemma pipes_to_spaces_no_bar (s : string) :
  mem "|" (pipes_to_spaces s) = false.
Proof.
  induction s as [|c s IH]; [reflexivity|].
  cbn [pipes_to_spaces mem]. rewrite IH, orb_false_r.
  destruct (Ascii.eqb c "|") eqn:E; [reflexivity|].
  rewrite Ascii.eqb_sym. exact E.
Qed.

Lemma pipes_to_spaces_length (s : string) :
  String.length (pipes_to_spaces s) = String.length s.
Proof.
  induction s as [|c s IH]; [reflexivity|].
  cbn [pipes_to_spaces String.length]. now rewrite IH.
Qed.

Lemma init_config_step_bar_free (ok : bool) (cfg : Config) (elt : string) :
  bar_free cfg -> bar_free (init_config_step ok cfg elt).
Proof.
  intros H v. unfold init_config_step, dup_value.
  destruct (strncmp_eq 8 elt "ssh_cmd=");
    [|destruct (strncmp_eq 9 elt "ssh_args=");
      [|destruct (strncmp_eq 16 elt "helpertask_args=")]];
    cbn [ssh_cmd ssh_args helpertask_args]; try apply H;
    destruct ok; intros [Hv|[Hv|Hv]];
    try discriminate;
    try (injection Hv as <-; apply pipes_to_spaces_no_bar);
    apply H; auto.
Qed.

Lemma init_config_from_bar_free (dup_ok : nat -> bool) (av : list string) :
  forall i cfg, bar_free cfg -> bar_free (init_config_from dup_ok i cfg av).
Proof.
  induction av as [|elt av IH]; intros i cfg H; [exact H|].
  cbn [init_config_from]. apply IH, init_config_step_bar_free, H.
Qed.

(** Whatever the tokens are and whichever copies fail, no value the
    loader leaves in the three pointers holds a bar: every bar of a token
    has been written over with a space. *)
Theorem config_values_have_no_bar (dup_ok : nat -> bool) (av : list string)
  (v : string) :
  let cfg := __stunnel_init_config dup_ok config_init av in
  ssh_cmd cfg = Some v \/ ssh_args cfg = Some v
  \/ helpertask_args cfg = Some v ->
  mem "|" v = false.
Proof.
  intros cfg. apply (init_config_from_bar_free dup_ok av 0 config_init).
  intros u [H|[H|H]]; discriminate.
Qed.

Lemma init_config_step_unrecognized (ok : bool) (cfg : Config) (elt : string) :
  recognized elt = false -> init_config_step ok cfg elt = cfg.
Proof.
  unfold recognized, init_config_step. intros H.
  apply orb_false_iff in H as [H Hh]. apply orb_false_iff in H as [Hc Ha].
  rewrite (strncmp_key "ssh_cmd=" elt 8 eq_refl),
    (strncmp_key "ssh_args=" elt 9 eq_refl),
    (strncmp_key "helpertask_args=" elt 16 eq_refl), Hc, Ha, Hh.
  reflexivity.
Qed.

(** Tokens that start with none of the three keys change nothing,
    whatever the configuration was before and wherever they stand. *)
Theorem config_ignores_unrecognized (dup_ok : nat -> bool) (cfg : Config)
  (av : list string) :
  Forall (fun elt => recognized elt = false) av ->
  __stunnel_init_config dup_ok cfg av = cfg.
Proof.
  intros H. unfold __stunnel_init_config. generalize 0.
  induction H as [|elt av Helt _ IH]; intros n; [reflexivity|].
  cbn [init_config_from].
  rewrite init_config_step_unrecognized by exact Helt. apply IH.
Qed.

Lemma init_config_from_app (dup_ok : nat -> bool) (av1 av2 : list string) :
  forall i cfg,
    init_config_from dup_ok i cfg (av1 ++ av2)%list =
    init_config_from dup_ok (i + List.length av1)
      (init_config_from dup_ok i cfg av1) av2.
Proof.
  induction av1 as [|elt av1 IH]; intros i cfg; cbn [app init_config_from].
  - cbn [List.length]. now rewrite Nat.add_0_r.
  - rewrite IH. cbn [List.length]. now rewrite Nat.add_succ_r.
Qed.

Lemma init_config_from_index (dup_ok : nat -> bool) (av : list string) :
  (forall i, dup_ok i = true) ->
  forall i j cfg,
    init_config_from dup_ok i cfg av = init_config_from dup_ok j cfg av.
Proof.
  intros Hd. induction av as [|elt av IH]; intros i j cfg; [reflexivity|].
  cbn [init_config_from]. rewrite !Hd. apply IH.
Qed.

Lemma config_eq (c d : Config) :
  ssh_cmd c = ssh_cmd d -> ssh_args c = ssh_args d ->
  helpertask_args c = helpertask_args d -> c = d.
Proof. destruct c, d; cbn; now intros -> -> ->. Qed.

(** With every copy made, loading two lists of tokens one after the other
    is loading them as one list, and loading a list a second time changes
    nothing. *)
Theorem config_load_composes (dup_ok : nat -> bool) (cfg : Config)
  (av1 av2 : list string) :
  (forall i, dup_ok i = true) ->
  __stunnel_init_config dup_ok cfg (av1 ++ av2)%list =
    __stunnel_init_config dup_ok (__stunnel_init_config dup_ok cfg av1) av2
  /\ __stunnel_init_config dup_ok (__stunnel_init_config dup_ok cfg av1) av1 =
     __stunnel_init_config dup_ok cfg av1.
Proof.
  intros Hd. unfold __stunnel_init_config. split.
  - rewrite init_config_from_app.
    apply init_config_from_index, Hd.
  - apply config_eq.
    + rewrite !(field_after_load _ ssh_cmd ssh_cmd_step dup_ok Hd).
      now destruct (last_value "ssh_cmd=" av1).
    + rewrite !(field_after_load _ ssh_args ssh_args_step dup_ok Hd).
      now destruct (last_value "ssh_args=" av1).
    + rewrite !(field_after_load _ helpertask_args helpertask_args_step
                  dup_ok Hd).
      now destruct (last_value "helpertask_args=" av1).
Qed.

(** A token with the key [ssh_cmd=] whose copy fails puts the null
    pointer back: when no later token has the key, the value of every
    earlier [ssh_cmd=] token is lost and the default is in effect. *)
Theorem config_strdup_failure_resets (dup_ok : nat -> bool) (cfg : Config)
  (pre post : list string) (elt : string) :
  String.prefix "ssh_cmd=" elt = true ->
  dup_ok (List.length pre) = false ->
  Forall (fun e => String.prefix "ssh_cmd=" e = false) post ->
  let cfg' := __stunnel_init_config dup_ok cfg (pre ++ elt :: post)%list in
  ssh_cmd cfg' = None
  /\ or_default (ssh_cmd cfg') DEFAULT_SSH_CMD = DEFAULT_SSH_CMD.
Proof.
  intros Helt Hdup Hpost cfg'.
  assert (H : ssh_cmd cfg' = None).
  { unfold cfg', __stunnel_init_config.
    rewrite init_config_from_app. cbn [init_config_from Nat.add].
    rewrite Hdup.
    set (c := init_config_step false _ elt).
    assert (Hc : ssh_cmd c = None).
    { unfold c, init_config_step.
      rewrite (strncmp_key "ssh_cmd=" elt 8 eq_refl), Helt. reflexivity. }
    clearbody c. clear - Hpost Hc.
    generalize (S (List.length pre)). revert c Hc.
    induction Hpost as [|e post He _ IH]; intros c Hc n; [exact Hc|].
    cbn [init_config_from]. apply IH.
    unfold init_config_step.
    rewrite (strncmp_key "ssh_cmd=" e 8 eq_refl), He.
    destruct (strncmp_eq 9 e "ssh_args=");
      [|destruct (strncmp_eq 16 e "helpertask_args=")]; exact Hc. }
  split; [exact H | now rewrite H].
Qed.

End ConfigLoading.

(** ** Job and step ids in the command lines *)

Section Ids.

Lemma append_inv_head (a x y : string) : a ++ x = a ++ y -> x = y.
Proof.
  induction a as [|c a IH]; cbn [append]; intros H; [exact H|].
  injection H as H. now apply IH.
Qed.

(** Two strings of digits, each followed by a character that is no digit,
    that start equal texts are equal. *)
Lemma digits_then_other (a a' r r' : string) (c c' : ascii) :
  all_digits a = true -> all_digits a' = true ->
  is_digit c = false -> is_digit c' = false ->
  a ++ String c r = a' ++ String c' r' ->
  a = a' /\ String c r = String c' r'.
Proof.
  revert a'. induction a as [|d a IH]; intros [|d' a'] Ha Ha' Hc Hc' H;
    cbn [append all_digits] in *.
  - now split.
  - injection H as -> _. apply andb_true_iff in Ha' as [Hd _]. congruence.
  - injection H as <- _. apply andb_true_iff in Ha as [Hd _]. congruence.
  - injection H as <- H.
    apply andb_true_iff in Ha as [_ Ha]. apply andb_true_iff in Ha' as [_ Ha'].
    destruct (IH a' Ha Ha' Hc Hc' H) as [-> Hr]. now split.
Qed.

Lemma print_u32_inj (n n' : N) :
  (n < 2 ^ 32)%N -> (n' < 2 ^ 32)%N -> print_u32 n = print_u32 n' -> n = n'.
Proof.
  intros Hn Hn' H.
  destruct (print_u32_value n) as [_ Hv].
  destruct (print_u32_value n') as [_ Hv'].
  rewrite H, Hv' in Hv. rewrite !N.mod_small in Hv by assumption.
  now symmetry.
Qed.

(** The text [jobid.stepid], followed by a space, tells the two ids. *)
Lemma id_argument_inj (jobid stepid jobid' stepid' : N) (r r' : string) :
  (jobid < 2 ^ 32)%N -> (stepid < 2 ^ 32)%N ->
  (jobid' < 2 ^ 32)%N -> (stepid' < 2 ^ 32)%N ->
  print_u32 jobid ++ "." ++ print_u32 stepid ++ String " " r =
  print_u32 jobid' ++ "." ++ print_u32 stepid' ++ String " " r' ->
  jobid = jobid' /\ stepid = stepid'.
Proof.
  intros Hj Hs Hj' Hs' H.
  destruct (print_u32_value jobid) as [Dj _].
  destruct (print_u32_value jobid') as [Dj' _].
  destruct (print_u32_value stepid) as [Ds _].
  destruct (print_u32_value stepid') as [Ds' _].
  change ("." ++ print_u32 stepid ++ String " " r)
    with (String "." (print_u32 stepid ++ String " " r)) in H.
  change ("." ++ print_u32 stepid' ++ String " " r')
    with (String "." (print_u32 stepid' ++ String " " r')) in H.
  destruct (digits_then_other _ _ _ _ "." "." Dj Dj' eq_refl eq_refl H)
    as [Ej H'].
  injection H' as H'.
  destruct (digits_then_other _ _ _ _ " " " " Ds Ds' eq_refl eq_refl H')
    as [Es _].
  split; now apply print_u32_inj.
Qed.

(** For one node and one configuration, launches for different pairs of
    job id and step id never have the same command line. *)
Theorem connect_cmd_ids_injective (cfg : Config) (node : string)
  (jobid stepid jobid' stepid' : N) :
  (jobid < 2 ^ 32)%N -> (stepid < 2 ^ 32)%N ->
  (jobid' < 2 ^ 32)%N -> (stepid' < 2 ^ 32)%N ->
  connect_cmd cfg node jobid stepid = connect_cmd cfg node jobid' stepid' ->
  jobid = jobid' /\ stepid = stepid'.
Proof.
  intros Hj Hs Hj' Hs' H. rewrite !connect_cmd_shape in H.
  apply append_inv_head in H. apply (append_inv_head " -t ") in H.
  apply append_inv_head in H. apply (append_inv_head " -i ") in H.
  exact (id_argument_inj _ _ _ _ _ _ Hj Hs Hj' Hs' H).
Qed.

End Ids.

(** ** More on the launcher and on node selection *)

Section LauncherRuns.

Variables (w : World) (cfg : Config).

(** The buffer [_connect_node] asks for always has at least 120 bytes to
    spare: the command line is the whole output of the format, never cut
    short. *)
Theorem connect_cmd_never_truncated (node : string) (jobid stepid : N) :
  connect_cmd cfg node jobid stepid =
    format connect_pattern (connect_args cfg node jobid stepid)
  /\ String.length (connect_cmd cfg node jobid stepid) + 120
     <= connect_length cfg node.
Proof.
  split.
  - rewrite connect_cmd_shape, connect_format. reflexivity.
  - rewrite connect_cmd_shape. unfold connect_length.
    change (strlen connect_pattern) with 73. unfold strlen.
    pose proof (print_u32_length jobid) as Hj.
    pose proof (print_u32_length stepid) as Hs.
    revert Hj Hs.
    generalize (print_u32 jobid) (print_u32 stepid)
      (or_default (ssh_cmd cfg) DEFAULT_SSH_CMD)
      (or_default (ssh_args cfg) DEFAULT_SSH_ARGS)
      (or_default (helpertask_args cfg) DEFAULT_HELPERTASK_ARGS).
    intros pj ps c a h Hj Hs.
    rewrite !length_append. simpl. lia.
Qed.

(** The launcher returns 0 exactly when it got its buffer, the stream of
    the helper program was open and a token was read from it. *)
Theorem connect_node_success_iff_token (node : string) (jobid stepid : N) :
  result (_connect_node w cfg (Some node) jobid stepid) = Ret 0%Z <->
  malloc_ok w = true
  /\ exists out forward,
       popen_out w (connect_cmd cfg node jobid stepid) = Some out
       /\ fscanf_255s out = Some forward.
Proof.
  rewrite connect_node_run.
  destruct (malloc_ok w).
  - destruct (popen_out w (connect_cmd cfg node jobid stepid)) as [out|].
    + destruct (fscanf_255s out) as [forward|] eqn:E; cbn [result snd].
      * split; [intros _ | reflexivity].
        split; [reflexivity|]. now exists out, forward.
      * split; [discriminate|]. intros (_ & o & f & [= <-] & Hf). congruence.
    + cbn [result snd]. split; [discriminate|].
      intros (_ & o & f & Ho & _). discriminate.
  - cbn [result snd]. split; [discriminate | intros [H _]; discriminate].
Qed.

(** Whenever the launcher returns it has started at most one process,
    and it has closed as many streams as it has opened. *)
Theorem connect_node_closes_stream (node : string) (jobid stepid : N)
  (status : Z) :
  result (_connect_node w cfg (Some node) jobid stepid) = Ret status ->
  pcloses (trace (_connect_node w cfg (Some node) jobid stepid)) =
    List.length (popens (trace (_connect_node w cfg (Some node) jobid stepid)))
  /\ List.length (popens (trace (_connect_node w cfg (Some node) jobid stepid)))
     <= 1.
Proof.
  rewrite connect_node_run.
  destruct (malloc_ok w).
  - destruct (popen_out w (connect_cmd cfg node jobid stepid)) as [out|].
    + destruct (fscanf_255s out); intros _; split; cbn; lia.
    + discriminate.
  - intros _. split; cbn; lia.
Qed.

(** Of a node list with several hosts only the first is ever connected:
    the one process started, if any, is the launch for the first host,
    and the status is 0 whatever the launcher returned. *)
Theorem connect_nodes_only_first (ns h : string) (hl : list string)
  (jobid stepid : N) :
  slurm_hostlist_create w ns = h :: hl ->
  popens (trace (_stunnel_connect_nodes w cfg ns jobid stepid)) =
    (if malloc_ok w then [connect_cmd cfg h jobid stepid] else [])
  /\ forall status,
       result (_stunnel_connect_nodes w cfg ns jobid stepid) = Ret status ->
       status = 0%Z.
Proof.
  intros H. unfold _stunnel_connect_nodes. rewrite H.
  cbn [slurm_hostlist_shift]. rewrite connect_node_run.
  destruct (malloc_ok w).
  - destruct (popen_out w (connect_cmd cfg h jobid stepid)) as [out|].
    + destruct (fscanf_255s out); split; try reflexivity;
        intros status [= <-]; reflexivity.
    + split; [reflexivity | discriminate].
  - split; [reflexivity | intros status [= <-]; reflexivity].
Qed.

Lemma connect_node_frees_nothing (host : option string) (jobid stepid : N) :
  frees (trace (_connect_node w cfg host jobid stepid)) = 0.
Proof.
  destruct host as [node|]; [|reflexivity].
  rewrite connect_node_run.
  destruct (malloc_ok w); [|reflexivity].
  destruct (popen_out w (connect_cmd cfg node jobid stepid)) as [out|];
    [|reflexivity].
  destruct (fscanf_255s out); reflexivity.
Qed.

(** The three ways the hook gives up after it has the ids. *)
Lemma local_user_init_gives_up (jobid stepid : N) (st : Z)
  (buf : job_info_msg_t) :
  S_JOB_ID w = Some jobid -> S_JOB_STEPID w = Some stepid ->
  slurm_load_job w jobid = (st, buf) ->
  (st <> 0%Z ->
   slurm_spank_local_user_init w cfg =
     ([Log Error "stunnel: unable to get job infos"], Ret (-3)%Z))
  /\ (st = 0%Z -> record_count buf <> 1%N ->
      slurm_spank_local_user_init w cfg =
        ([Log Error "stunnel: job infos are invalid"; FreeJobInfo],
         Ret (-4)%Z))
  /\ (forall job rest,
        st = 0%Z -> record_count buf = 1%N -> job_array buf = job :: rest ->
        nodes job = None ->
        slurm_spank_local_user_init w cfg =
          ([Log Error "stunnel: job has no allocated nodes defined";
            FreeJobInfo], Ret (-5)%Z)).
Proof.
  intros Hj Hs Hl. unfold slurm_spank_local_user_init.
  rewrite Hj, Hs, Hl. split; [|split].
  - intros Hst. apply Z.eqb_neq in Hst. now rewrite Hst.
  - intros -> Hc. apply N.eqb_neq in Hc. now rewrite Hc.
  - intros job rest -> Hc Ha Hn. now rewrite Hc, Ha, Hn.
Qed.

(** The run of the local set-up hook as the run of the launcher followed
    by the release of the job buffer. *)
Lemma local_user_init_launch (jobid stepid : N) (buf : job_info_msg_t)
  (job : job_info_t) (rest : list job_info_t) (ns : string) :
  S_JOB_ID w = Some jobid -> S_JOB_STEPID w = Some stepid ->
  slurm_load_job w jobid = (0%Z, buf) ->
  record_count buf = 1%N -> job_array buf = job :: rest ->
  nodes job = Some ns ->
  slurm_spank_local_user_init w cfg =
    match _connect_node w cfg
            (slurm_hostlist_shift (slurm_hostlist_create w ns)) jobid stepid
    with
    | (t, Ret _) => ((t ++ [FreeJobInfo])%list, Ret 0%Z)
    | (t, Fault) => (t, Fault)
    end.
Proof.
  intros Hj Hs Hl Hc Ha Hn. unfold slurm_spank_local_user_init.
  rewrite Hj, Hs, Hl, Hc, Ha, Hn. unfold _stunnel_connect_nodes.
  destruct (_connect_node w cfg _ jobid stepid) as [t [st|]];
    cbn [bind ret emit negb Z.eqb N.eqb Pos.eqb]; [|reflexivity].
  now rewrite app_nil_r.
Qed.

Lemma frees_app (t u : list event) : frees (t ++ u) = frees t + frees u.
Proof. unfold frees. now rewrite filter_app, length_app. Qed.

Lemma popens_app (t u : list event) :
  popens (t ++ u) = (popens t ++ popens u)%list.
Proof.
  induction t as [|e t IH]; [reflexivity|].
  destruct e; cbn [app popens]; now rewrite IH.
Qed.

(** Whenever the local set-up hook returns, it has released the job
    buffer exactly once if [slurm_load_job] had filled it in, and not at
    all if the ids were missing or the load failed. *)
Theorem local_user_init_frees_buffer (status : Z) :
  result (slurm_spank_local_user_init w cfg) = Ret status ->
  frees (trace (slurm_spank_local_user_init w cfg)) =
    match S_JOB_ID w, S_JOB_STEPID w with
    | Some jobid, Some _ =>
        if (fst (slurm_load_job w jobid) =? 0)%Z then 1 else 0
    | _, _ => 0
    end.
Proof.
  destruct (S_JOB_ID w) as [jobid|] eqn:Hj;
    [|intros _; now rewrite local_user_init_no_ids by now left].
  destruct (S_JOB_STEPID w) as [stepid|] eqn:Hs;
    [|intros _; now rewrite local_user_init_no_ids by now right].
  destruct (slurm_load_job w jobid) as [st buf] eqn:Hl. cbn [fst].
  destruct (local_user_init_gives_up jobid stepid st buf Hj Hs Hl)
    as (H3 & H4 & H5).
  destruct (Z.eqb_spec st 0) as [->|Hst]; [|now rewrite (H3 Hst)].
  destruct (N.eqb_spec (record_count buf) 1) as [Hc|Hc];
    [|now rewrite (H4 eq_refl Hc)].
  destruct (job_array buf) as [|job rest] eqn:Ha.
  { unfold slurm_spank_local_user_init.
    rewrite Hj, Hs, Hl, Hc, Ha. discriminate. }
  destruct (nodes job) as [ns|] eqn:Hn;
    [|now rewrite (H5 job rest eq_refl Hc eq_refl Hn)].
  rewrite (local_user_init_launch jobid stepid buf job rest ns Hj Hs Hl Hc Ha Hn).
  pose proof (connect_node_frees_nothing
                (slurm_hostlist_shift (slurm_hostlist_create w ns))
                jobid stepid) as Hf.
  destruct (_connect_node w cfg _ jobid stepid) as [t [s|]];
    [|discriminate].
  intros _. cbn [trace fst] in *. rewrite frees_app, Hf. reflexivity.
Qed.

(** The local set-up hook returns one of 0, -1, -3, -4 and -5, and with
    any status other than 0 it has started no process. *)
Theorem local_user_init_statuses (status : Z) :
  result (slurm_spank_local_user_init w cfg) = Ret status ->
  (status = 0 \/ status = -1 \/ status = -3 \/ status = -4 \/ status = -5)%Z
  /\ (status <> 0%Z ->
      popens (trace (slurm_spank_local_user_init w cfg)) = []).
Proof.
  destruct (S_JOB_ID w) as [jobid|] eqn:Hj;
    [|rewrite local_user_init_no_ids by (now left);
      intros [= <-]; split; [tauto | reflexivity]].
  destruct (S_JOB_STEPID w) as [stepid|] eqn:Hs;
    [|rewrite local_user_init_no_ids by (now right);
      intros [= <-]; split; [tauto | reflexivity]].
  destruct (slurm_load_job w jobid) as [st buf] eqn:Hl.
  destruct (local_user_init_gives_up jobid stepid st buf Hj Hs Hl)
    as (H3 & H4 & H5).
  destruct (Z.eqb_spec st 0) as [->|Hst];
    [|rewrite (H3 Hst); intros [= <-]; split; [tauto | reflexivity]].
  destruct (N.eqb_spec (record_count buf) 1) as [Hc|Hc];
    [|rewrite (H4 eq_refl Hc); intros [= <-]; split; [tauto | reflexivity]].
  destruct (job_array buf) as [|job rest] eqn:Ha.
  { unfold slurm_spank_local_user_init.
    rewrite Hj, Hs, Hl, Hc, Ha. discriminate. }
  destruct (nodes job) as [ns|] eqn:Hn;
    [|rewrite (H5 job rest eq_refl Hc eq_refl Hn);
      intros [= <-]; split; [tauto | reflexivity]].
  rewrite (local_user_init_launch jobid stepid buf job rest ns Hj Hs Hl Hc Ha Hn).
  destruct (_connect_node w cfg _ jobid stepid) as [t [s|]];
    [|discriminate].
  intros [= <-]. split; [tauto | intros H; now elim H].
Qed.

End LauncherRuns.

(** ** More on the exit hook *)

Section ExitRuns.

Variable X11_LIBEXEC_PROG : string.

Hypothesis Hprog : mem "%" X11_LIBEXEC_PROG = false.

(** The run of the exit hook in a remote context with both ids. *)
Lemma exit_run (w : World) (jobid stepid : N) :
  spank_remote w = true ->
  S_JOB_ID w = Some jobid -> S_JOB_STEPID w = Some stepid ->
  let cmd :=
    X11_LIBEXEC_PROG ++ " -i " ++ print_u32 jobid ++ "." ++ print_u32 stepid
      ++ " -r 2>/dev/null" in
  slurm_spank_exit X11_LIBEXEC_PROG w =
    if malloc_ok w then
      match popen_out w cmd with
      | None =>
          ([Popen cmd;
            Log Error ("x11: unable to exec remove cmd '" ++ cmd ++ "'")],
           Ret 0%Z)
      | Some _ => ([Popen cmd; Pclose], Ret 0%Z)
      end
    else ([], Fault).
Proof.
  intros Hr Hj Hs cmd. unfold slurm_spank_exit.
  rewrite Hr, Hj, Hs. cbn [negb].
  destruct (malloc_ok w); [|reflexivity].
  destruct (exit_snprintf X11_LIBEXEC_PROG jobid stepid Hprog) as [Hc Hfit].
  cbn zeta in Hc, Hfit. rewrite Hfit, Hc. fold cmd.
  destruct (popen_out w cmd); reflexivity.
Qed.

(** The exit hook returns 0 or -1, and -1 exactly when it runs in a
    remote context and the job id or the step id is not to be had; then
    it has done nothing.  It never reports a command that did not fit its
    buffer, and it never starts more than one process. *)
Theorem exit_statuses (w : World) (status : Z) :
  result (slurm_spank_exit X11_LIBEXEC_PROG w) = Ret status ->
  (status = 0 \/ status = -1)%Z
  /\ (status = (-1)%Z <->
      spank_remote w = true
      /\ (S_JOB_ID w = None \/ S_JOB_STEPID w = None))
  /\ (status = (-1)%Z -> trace (slurm_spank_exit X11_LIBEXEC_PROG w) = [])
  /\ ~ In "x11: error while creating remove reference cmd"
         (errors (trace (slurm_spank_exit X11_LIBEXEC_PROG w)))
  /\ List.length (popens (trace (slurm_spank_exit X11_LIBEXEC_PROG w))) <= 1.
Proof.
  destruct (spank_remote w) eqn:Hr.
  - destruct (S_JOB_ID w) as [jobid|] eqn:Hj.
    + destruct (S_JOB_STEPID w) as [stepid|] eqn:Hs.
      * rewrite (exit_run w jobid stepid Hr Hj Hs). cbn zeta.
        destruct (malloc_ok w); [|discriminate].
        destruct (popen_out w _); intros [= <-];
          (split; [now left|]); (split; [split; [discriminate|]|]);
          try (intros (_ & [H|H]); discriminate);
          (split; [discriminate|]); split; cbn; try lia;
          intros [H|[]]; discriminate.
      * unfold slurm_spank_exit. rewrite Hr, Hj, Hs. cbn.
        intros [= <-]. split; [now right|]. split; [tauto|].
        split; [reflexivity|]. split; [intros []|lia].
    + unfold slurm_spank_exit. rewrite Hr, Hj. cbn.
      intros [= <-]. split; [now right|]. split; [tauto|].
      split; [reflexivity|]. split; [intros []|lia].
  - unfold slurm_spank_exit. rewrite Hr. cbn.
    intros [= <-]. split; [now left|].
    split; [split; [discriminate | intros [H _]; discriminate]|].
    split; [discriminate|]. split; [intros []|lia].
Qed.

(** The tear-down commands of two jobs, or of two steps of a job, are
    never the same. *)
Theorem exit_cmd_ids_injective (w w' : World)
  (jobid stepid jobid' stepid' : N) :
  spank_remote w = true -> S_JOB_ID w = Some jobid ->
  S_JOB_STEPID w = Some stepid -> malloc_ok w = true ->
  spank_remote w' = true -> S_JOB_ID w' = Some jobid' ->
  S_JOB_STEPID w' = Some stepid' -> malloc_ok w' = true ->
  (jobid < 2 ^ 32)%N -> (stepid < 2 ^ 32)%N ->
  (jobid' < 2 ^ 32)%N -> (stepid' < 2 ^ 32)%N ->
  popens (trace (slurm_spank_exit X11_LIBEXEC_PROG w)) =
    popens (trace (slurm_spank_exit X11_LIBEXEC_PROG w')) ->
  jobid = jobid' /\ stepid = stepid'.
Proof.
  intros Hr Hj Hs Hm Hr' Hj' Hs' Hm' Bj Bs Bj' Bs'.
  rewrite (exit_run w jobid stepid Hr Hj Hs), Hm.
  rewrite (exit_run w' jobid' stepid' Hr' Hj' Hs'), Hm'. cbn zeta.
  destruct (popen_out w _), (popen_out w' _); cbn [trace fst popens];
    intros [= H]; apply append_inv_head in H;
    apply (append_inv_head " -i ") in H;
    exact (id_argument_inj _ _ _ _ _ _ Bj Bs Bj' Bs' H).
Qed.

End ExitRuns.

(** ** The X11 option *)

Section X11Option.

Variable m : X11Modes.

Lemma strncmp_eq_exact (key : string) :
  forall a, strncmp_eq (S (String.length key)) a key = true <-> a = key.
Proof.
  induction key as [|k key IH]; intros [|c a].
  - split; reflexivity.
  - split; discriminate.
  - split; discriminate.
  - change (strncmp_eq (S (String.length (String k key))) (String c a)
              (String k key))
      with (if Ascii.eqb c k
            then strncmp_eq (S (String.length key)) a key else false).
    destruct (Ascii.eqb_spec c k) as [->|Hne].
    + split.
      * intros H. apply IH in H. now subst a.
      * intros [= ->]. now apply IH.
    + split; [discriminate | intros [= H _]; now elim Hne].
Qed.

Lemma x11_value_spec (o : string) :
  x11_value o = true <->
  o = "first" \/ o = "last" \/ o = "all" \/ String.prefix "batch" o = true.
Proof.
  unfold x11_value. rewrite !orb_true_iff, !String.eqb_eq. tauto.
Qed.

(** The mode [_x11_opt_process] computes before its test. *)
Lemma x11_opt_process_mode (x11_mode : Z) (o : string) :
  (if strncmp_eq 6 o "first" then X11_MODE_FIRST m
   else if strncmp_eq 5 o "last" then X11_MODE_LAST m
   else if strncmp_eq 4 o "all" then X11_MODE_ALL m
   else if strncmp_eq 5 o "batch" then X11_MODE_BATCH m
   else x11_mode) =
  (if String.eqb o "first" then X11_MODE_FIRST m
   else if String.eqb o "last" then X11_MODE_LAST m
   else if String.eqb o "all" then X11_MODE_ALL m
   else if String.prefix "batch" o then X11_MODE_BATCH m
   else x11_mode).
Proof.
  assert (E : forall key,
             strncmp_eq (S (String.length key)) o key = String.eqb o key).
  { intros key. destruct (String.eqb_spec o key) as [->|Hne].
    - now apply strncmp_eq_exact.
    - destruct (strncmp_eq _ o key) eqn:H; [|reflexivity].
      apply strncmp_eq_exact in H. now elim Hne. }
  pose proof (E "first") as E1. pose proof (E "last") as E2.
  pose proof (E "all") as E3. cbn [String.length] in E1, E2, E3.
  rewrite E1, E2, E3, (strncmp_key "batch" o 5 eq_refl). reflexivity.
Qed.

Hypothesis first_set : X11_MODE_FIRST m <> X11_MODE_NONE m.
Hypothesis last_set : X11_MODE_LAST m <> X11_MODE_NONE m.
Hypothesis all_set : X11_MODE_ALL m <> X11_MODE_NONE m.
Hypothesis batch_set : X11_MODE_BATCH m <> X11_MODE_NONE m.

(** With no mode chosen before, the option is accepted exactly for no
    value and for the values [first], [last] and [all] as they stand and
    every value that starts with [batch]; any other value is reported
    and gives -1. *)
Theorem x11_opt_accepted_values (o : string) :
  _x11_opt_process m (X11_MODE_NONE m) None = ([], Ret (X11_MODE_FIRST m, 0%Z))
  /\ (x11_value o = true <->
      exists mode,
        _x11_opt_process m (X11_MODE_NONE m) (Some o) = ([], Ret (mode, 0%Z)))
  /\ (x11_value o = false ->
      _x11_opt_process m (X11_MODE_NONE m) (Some o) =
        ([Log Error ("Bad value for --x11: " ++ o)],
         Ret (X11_MODE_NONE m, (-1)%Z))).
Proof.
  split; [reflexivity|].
  unfold _x11_opt_process, x11_value.
  rewrite x11_opt_process_mode.
  destruct (String.eqb o "first"); cbn [orb].
  { apply Z.eqb_neq in first_set. rewrite first_set.
    split; [|discriminate].
    split; [intros _; eexists; reflexivity | intros _; reflexivity]. }
  destruct (String.eqb o "last"); cbn [orb].
  { apply Z.eqb_neq in last_set. rewrite last_set.
    split; [|discriminate].
    split; [intros _; eexists; reflexivity | intros _; reflexivity]. }
  destruct (String.eqb o "all"); cbn [orb].
  { apply Z.eqb_neq in all_set. rewrite all_set.
    split; [|discriminate].
    split; [intros _; eexists; reflexivity | intros _; reflexivity]. }
  destruct (String.prefix "batch" o).
  { apply Z.eqb_neq in batch_set. rewrite batch_set.
    split; [|discriminate].
    split; [intros _; eexists; reflexivity | intros _; reflexivity]. }
  rewrite Z.eqb_refl. split; [|reflexivity].
  split; [discriminate | intros [mode H]; discriminate].
Qed.

(** The value [batch] is matched on its first five characters only:
    whatever follows them, the mode becomes the batch mode, without a
    message. *)
Theorem x11_opt_batch_is_prefix (x11_mode : Z) (suffix : string) :
  _x11_opt_process m x11_mode (Some ("batch" ++ suffix)) =
    ([], Ret (X11_MODE_BATCH m, 0%Z)).
Proof.
  unfold _x11_opt_process. rewrite x11_opt_process_mode.
  change (String.eqb ("batch" ++ suffix) "first") with false.
  change (String.eqb ("batch" ++ suffix) "last") with false.
  change (String.eqb ("batch" ++ suffix) "all") with false.
  rewrite prefix_refl_app.
  apply Z.eqb_neq in batch_set. now rewrite batch_set.
Qed.

(** Once a mode is chosen, a value that is none of the accepted ones is
    let through: the mode stays as it was, nothing is logged and the
    status is 0. *)
Theorem x11_opt_bad_value_after_good (x11_mode : Z) (o : string) :
  x11_mode <> X11_MODE_NONE m -> x11_value o = false ->
  _x11_opt_process m x11_mode (Some o) = ([], Ret (x11_mode, 0%Z)).
Proof.
  intros Hmode Ho. unfold _x11_opt_process.
  rewrite x11_opt_process_mode. unfold x11_value in Ho.
  apply orb_false_iff in Ho as [Ho Hb]. apply orb_false_iff in Ho as [Ho Ha].
  apply orb_false_iff in Ho as [Hf Hl]. rewrite Hf, Hl, Ha, Hb.
  apply Z.eqb_neq in Hmode. now rewrite Hmode.
Qed.

End X11Option.

(** ** The X11 set-up of an interactive step *)

Section X11Inter.

Variable X11_LIBEXEC_PROG : string.

Hypothesis Hprog : mem "%" X11_LIBEXEC_PROG = false.

Variables (xw : X11World) (env : option string) (jobid stepid : N).

Let w : World := x11_base xw.

Let cmd : string :=
  X11_LIBEXEC_PROG ++ " -i " ++ print_u32 jobid ++ "." ++ print_u32 stepid
    ++ " -g".

Let run : M (Z * option string) :=
  _x11_init_remote_inter X11_LIBEXEC_PROG xw env jobid stepid.

Lemma inter_snprintf :
  let size := strlen (inter_pattern X11_LIBEXEC_PROG) + 128 in
  let printed :=
    snprintf size (inter_pattern X11_LIBEXEC_PROG) [ArgU jobid; ArgU stepid] in
  fst printed = cmd /\ (size <=? snd printed)%nat = false.
Proof.
  intros size printed.
  assert (Hf : format (inter_pattern X11_LIBEXEC_PROG)
                 [ArgU jobid; ArgU stepid] = cmd).
  { unfold inter_pattern. rewrite format_plain_prefix by exact Hprog.
    reflexivity. }
  assert (Hlen : String.length
                   (format (inter_pattern X11_LIBEXEC_PROG)
                      [ArgU jobid; ArgU stepid]) < size).
  { rewrite Hf. unfold cmd, size, inter_pattern, strlen.
    pose proof (print_u32_length jobid) as Hj.
    pose proof (print_u32_length stepid) as Hs.
    revert Hj Hs. generalize (print_u32 jobid) (print_u32 stepid).
    intros pj ps Hj Hs. rewrite !length_append. simpl. lia. }
  unfold printed. rewrite snprintf_fits by exact Hlen. cbn [fst snd].
  split; [exact Hf | apply Nat.leb_gt, Hlen].
Qed.

(** The run of the set-up, by what its surroundings do. *)
Lemma inter_run :
  run =
  if malloc_ok w then
    match popen_out w cmd with
    | None =>
        ([Popen cmd; Log Error ("x11: unable to exec get cmd '" ++ cmd ++ "'")],
         Ret ((-3)%Z, env))
    | Some out =>
        match fscanf_255s out with
        | None =>
            ([Popen cmd; Fscanf; Log Error "x11: unable to read DISPLAY value";
              Pclose], Ret ((-4)%Z, env))
        | Some display =>
            if x11_setenv_ok xw then
              ([Popen cmd; Fscanf;
                Log Debug ("x11: now using DISPLAY=" ++ display); Pclose],
               Ret (0%Z, Some display))
            else
              ([Popen cmd; Fscanf;
                Log Error "x11: unable to set DISPLAY in env"; Pclose],
               Ret ((-5)%Z, env))
        end
    end
  else ([Log Error "x11: error while building cmd"], Ret ((-2)%Z, env)).
Proof.
  unfold run, _x11_init_remote_inter. fold w.
  destruct (malloc_ok w); [|reflexivity]. cbn [negb orb].
  destruct inter_snprintf as [Hc Hfit]. cbn zeta in Hc, Hfit.
  rewrite Hfit, Hc.
  destruct (popen_out w cmd) as [out|]; [|reflexivity].
  destruct (fscanf_255s out); [|reflexivity].
  destruct (x11_setenv_ok xw); reflexivity.
Qed.

(** The interactive set-up always returns, with one of the statuses 0,
    -2, -3, -4 and -5; it leaves [DISPLAY] as it was unless the status is
    0; it fails with -2 exactly when it has no buffer, and with -3, after
    the one message that it could not run the command, exactly when
    [popen] gives no stream. *)
Theorem inter_always_returns :
  exists status env',
    result run = Ret (status, env')
    /\ In status [0; -2; -3; -4; -5]%Z
    /\ (status <> 0%Z -> env' = env)
    /\ (status = (-2)%Z <-> malloc_ok w = false)
    /\ (status = (-3)%Z <-> malloc_ok w = true /\ popen_out w cmd = None)
    /\ (status = (-3)%Z ->
        errors (trace run) = ["x11: unable to exec get cmd '" ++ cmd ++ "'"]).
Proof.
  rewrite inter_run.
  destruct (malloc_ok w).
  - destruct (popen_out w cmd) as [out|].
    + destruct (fscanf_255s out) as [display|].
      * destruct (x11_setenv_ok xw).
        -- exists 0%Z, (Some display). cbn.
           repeat split; try tauto; try discriminate.
           intros [_ H]; discriminate.
        -- exists (-5)%Z, env. cbn.
           repeat split; try tauto; try discriminate.
           intros [_ H]; discriminate.
      * exists (-4)%Z, env. cbn.
        repeat split; try tauto; try discriminate.
        intros [_ H]; discriminate.
    + exists (-3)%Z, env. cbn. repeat split; try tauto; discriminate.
  - exists (-2)%Z, env. cbn. repeat split; try tauto; try discriminate.
    intros [H _]; discriminate.
Qed.

(** The interactive set-up succeeds exactly when it has its buffer, a
    token is read from the helper program and [spank_setenv] accepts it;
    [DISPLAY] is then that token. *)
Theorem inter_sets_display (env' : option string) :
  result run = Ret (0%Z, env') <->
  malloc_ok w = true /\ x11_setenv_ok xw = true
  /\ exists out display,
       popen_out w cmd = Some out /\ fscanf_255s out = Some display
       /\ env' = Some display.
Proof.
  rewrite inter_run.
  destruct (malloc_ok w).
  - destruct (popen_out w cmd) as [out|].
    + destruct (fscanf_255s out) as [display|] eqn:E.
      * destruct (x11_setenv_ok xw); cbn [result snd].
        -- split.
           ++ intros [= <-]. repeat split. now exists out, display.
           ++ intros (_ & _ & o & d & [= <-] & Hd & ->). congruence.
        -- split; [discriminate | intros (_ & H & _); discriminate].
      * cbn [result snd]. split; [discriminate|].
        intros (_ & _ & o & d & [= <-] & Hd & _). congruence.
    + cbn [result snd]. split; [discriminate|].
      intros (_ & _ & o & d & H & _). discriminate.
  - cbn [result snd]. split; [discriminate | intros [H _]; discriminate].
Qed.

(** The interactive set-up starts the helper program with
    [-i jobid.stepid -g], once, unless it has no buffer; it closes the
    stream whenever there is one. *)
Theorem inter_command :
  popens (trace run) = (if malloc_ok w then [cmd] else [])
  /\ pcloses (trace run) =
     (if malloc_ok w then
        match popen_out w cmd with Some _ => 1 | None => 0 end
      else 0).
Proof.
  rewrite inter_run.
  destruct (malloc_ok w); [|split; reflexivity].
  destruct (popen_out w cmd) as [out|]; [|split; reflexivity].
  destruct (fscanf_255s out); [|split; reflexivity].
  destruct (x11_setenv_ok xw); split; reflexivity.
Qed.

End X11Inter.

(** ** The X11 set-up of a batch step *)

Section X11Batch.

Variable X11_LIBEXEC_PROG : string.

Hypothesis Hprog : mem "%" X11_LIBEXEC_PROG = false.

Variables (xw : X11World) (cfg : Config) (env : option string)
  (jobid stepid : N).

Let w : World := x11_base xw.

Let run : M (Z * option string) :=
  _x11_init_remote_batch X11_LIBEXEC_PROG xw cfg env jobid stepid.

Lemma batch_format (pw_name alloc display localhost : string) :
  format (batch_pattern X11_LIBEXEC_PROG)
    (batch_args cfg pw_name alloc display localhost jobid stepid) =
  X11_LIBEXEC_PROG ++ " -u " ++ pw_name
    ++ " -s " ++ DQ ++ or_default (ssh_cmd cfg) DEFAULT_SSH_CMD ++ DQ
    ++ " -o " ++ DQ ++ or_default (ssh_args cfg) DEFAULT_SSH_ARGS ++ DQ
    ++ " -f " ++ alloc ++ " -d " ++ display ++ " -t " ++ localhost
    ++ " -i " ++ print_u32 jobid ++ "." ++ print_u32 stepid
    ++ " -cwg " ++ or_default (helpertask_args cfg) DEFAULT_HELPERTASK_ARGS
    ++ " &".
Proof.
  unfold batch_pattern. rewrite format_plain_prefix by exact Hprog.
  reflexivity.
Qed.

(** The length of the command against the size of its buffer: the
    buffer is too short exactly when the nine texts put into the pattern
    have 146 characters or more between them. *)
Lemma batch_fits (pw_name alloc display localhost : string) :
  let total :=
    String.length pw_name
    + String.length (or_default (ssh_cmd cfg) DEFAULT_SSH_CMD)
    + String.length (or_default (ssh_args cfg) DEFAULT_SSH_ARGS)
    + String.length alloc + String.length display + String.length localhost
    + String.length (print_u32 jobid) + String.length (print_u32 stepid)
    + String.length (or_default (helpertask_args cfg) DEFAULT_HELPERTASK_ARGS)
  in
  (strlen (batch_pattern X11_LIBEXEC_PROG) + 128
   <=? String.length
         (format (batch_pattern X11_LIBEXEC_PROG)
            (batch_args cfg pw_name alloc display localhost jobid stepid)))%nat
  = (146 <=? total)%nat.
Proof.
  intros total. rewrite batch_format. unfold total, batch_pattern, strlen.
  generalize (print_u32 jobid) (print_u32 stepid)
    (or_default (ssh_cmd cfg) DEFAULT_SSH_CMD)
    (or_default (ssh_args cfg) DEFAULT_SSH_ARGS)
    (or_default (helpertask_args cfg) DEFAULT_HELPERTASK_ARGS).
  intros pj ps c a h. rewrite !length_append.
  change (String.length DQ) with 1.
  cbn [String.length].
  destruct (Nat.leb_spec 146
              (String.length pw_name + String.length c + String.length a
               + String.length alloc + String.length display
               + String.length localhost + String.length pj
               + String.length ps + String.length h)) as [H|H].
  - apply Nat.leb_le. lia.
  - apply Nat.leb_gt. lia.
Qed.

Variables (localhost display pw_name alloc : string)
  (buf : x11_job_info_msg_t) (job : x11_job_info_t)
  (rest : list x11_job_info_t).

Hypothesis Hhost : x11_hostname xw = Some localhost.
Hypothesis Hdisplay : spank_getenv_256 env = Some display.
Hypothesis Hload : x11_load_job xw jobid = (0%Z, buf).
Hypothesis Hcount : x11_record_count buf = 1%N.
Hypothesis Harray : x11_job_array buf = job :: rest.
Hypothesis Hpw : x11_getpwuid xw (user_id (x11_info job)) = (0%Z, Some pw_name).
Hypothesis Halloc : alloc_node job = Some alloc.
Hypothesis Hmalloc : malloc_ok w = true.

Let full : string :=
  X11_LIBEXEC_PROG ++ " -u " ++ pw_name
    ++ " -s " ++ DQ ++ or_default (ssh_cmd cfg) DEFAULT_SSH_CMD ++ DQ
    ++ " -o " ++ DQ ++ or_default (ssh_args cfg) DEFAULT_SSH_ARGS ++ DQ
    ++ " -f " ++ alloc ++ " -d " ++ display ++ " -t " ++ localhost
    ++ " -i " ++ print_u32 jobid ++ "." ++ print_u32 stepid
    ++ " -cwg " ++ or_default (helpertask_args cfg) DEFAULT_HELPERTASK_ARGS
    ++ " &".

Let total : nat :=
  String.length pw_name
  + String.length (or_default (ssh_cmd cfg) DEFAULT_SSH_CMD)
  + String.length (or_default (ssh_args cfg) DEFAULT_SSH_ARGS)
  + String.length alloc + String.length display + String.length localhost
  + String.length (print_u32 jobid) + String.length (print_u32 stepid)
  + String.length (or_default (helpertask_args cfg) DEFAULT_HELPERTASK_ARGS).

(** The run of the set-up once the command is to be built. *)
Lemma batch_run :
  run =
  if (146 <=? total)%nat then
    ([Log Error "x11: error while building cmd"; FreeJobInfo],
     Ret ((-2)%Z, env))
  else
    match popen_out w full with
    | None =>
        ([Log Debug ("x11: batch mode : executing " ++ full); Popen full;
          Log Error ("x11: unable to exec get cmd '" ++ full ++ "'");
          FreeJobInfo], Ret ((-3)%Z, env))
    | Some out =>
        match fscanf_255s out with
        | None =>
            ([Log Debug ("x11: batch mode : executing " ++ full); Popen full;
              Fscanf; Log Error "x11: unable to get a DISPLAY value"; Pclose;
              FreeJobInfo], Ret ((-6)%Z, env))
        | Some d =>
            if x11_setenv_ok xw then
              ([Log Debug ("x11: batch mode : executing " ++ full);
                Popen full; Fscanf;
                Log Debug ("x11: now using DISPLAY=" ++ d); Pclose;
                FreeJobInfo], Ret (0%Z, Some d))
            else
              ([Log Debug ("x11: batch mode : executing " ++ full);
                Popen full; Fscanf;
                Log Error "x11: unable to set DISPLAY in job env"; Pclose;
                FreeJobInfo], Ret ((-5)%Z, env))
        end
    end.
Proof.
  unfold run, _x11_init_remote_batch. fold w.
  rewrite Hhost, Hdisplay, Hload, Hcount, Harray, Hpw, Halloc, Hmalloc.
  cbn [negb Z.eqb N.eqb Pos.eqb]. cbn zeta.
  change (snd (snprintf ?n ?p ?a)) with (String.length (format p a)).
  rewrite batch_fits. fold total.
  destruct (146 <=? total)%nat eqn:E; [reflexivity|].
  assert (Hc : fst (snprintf (strlen (batch_pattern X11_LIBEXEC_PROG) + 128)
                      (batch_pattern X11_LIBEXEC_PROG)
                      (batch_args cfg pw_name alloc display localhost
                         jobid stepid)) = full).
  { rewrite snprintf_fits.
    - apply batch_format.
    - apply Nat.leb_gt. rewrite batch_fits. exact E. }
  rewrite Hc.
  destruct (popen_out w full) as [out|]; [|reflexivity].
  destruct (fscanf_255s out); [|reflexivity].
  destruct (x11_setenv_ok xw); reflexivity.
Qed.

(** The batch set-up never runs a command that was cut short.  When the
    nine texts it puts into the pattern have 146 characters or more
    between them, the command does not fit the buffer: the set-up logs an
    error, starts nothing, releases the job buffer and returns -2.  With
    fewer, the one process it starts is the whole command. *)
Theorem batch_overflow_guard :
  (146 <= total ->
   run = ([Log Error "x11: error while building cmd"; FreeJobInfo],
          Ret ((-2)%Z, env)))
  /\ (total < 146 ->
      popens (trace run) = [full] /\ frees (trace run) = 1).
Proof.
  rewrite batch_run. split; intros H.
  - apply Nat.leb_le in H. now rewrite H.
  - apply Nat.leb_gt in H. rewrite H.
    destruct (popen_out w full) as [out|]; [|split; reflexivity].
    destruct (fscanf_255s out); [|split; reflexivity].
    destruct (x11_setenv_ok xw); split; reflexivity.
Qed.

End X11Batch.

Section X11BatchStatuses.

Variable X11_LIBEXEC_PROG : string.

Hypothesis Hprog : mem "%" X11_LIBEXEC_PROG = false.

Variables (xw : X11World) (cfg : Config) (env : option string)
  (jobid stepid : N).

(** Whenever the batch set-up returns, its status is one of 0, -1, -2,
    -3, -4, -5, -6, -10 and -20, [DISPLAY] is as it was unless the status
    is 0, and the job buffer has been released exactly once if
    [slurm_load_job] had filled it in and not at all otherwise. *)
Theorem batch_statuses (status : Z) (env' : option string) :
  result (_x11_init_remote_batch X11_LIBEXEC_PROG xw cfg env jobid stepid)
    = Ret (status, env') ->
  In status [0; -1; -2; -3; -4; -5; -6; -10; -20]%Z
  /\ (status <> 0%Z -> env' = env)
  /\ frees (trace (_x11_init_remote_batch X11_LIBEXEC_PROG xw cfg env
                     jobid stepid)) =
     match x11_hostname xw, spank_getenv_256 env with
     | Some _, Some _ => if (fst (x11_load_job xw jobid) =? 0)%Z then 1 else 0
     | _, _ => 0
     end.
Proof.
  destruct (x11_hostname xw) as [localhost|] eqn:Hh.
  2:{ unfold _x11_init_remote_batch. rewrite Hh. intros [= <- <-].
      cbn. tauto. }
  destruct (spank_getenv_256 env) as [display|] eqn:Hd.
  2:{ unfold _x11_init_remote_batch. rewrite Hh, Hd. intros [= <- <-].
      cbn. tauto. }
  destruct (x11_load_job xw jobid) as [st buf] eqn:Hl. cbn [fst].
  destruct (Z.eqb_spec st 0) as [->|Hst].
  2:{ unfold _x11_init_remote_batch. rewrite Hh, Hd, Hl.
      apply Z.eqb_neq in Hst. rewrite Hst. intros [= <- <-]. cbn. tauto. }
  destruct (N.eqb_spec (x11_record_count buf) 1) as [Hc|Hc].
  2:{ unfold _x11_init_remote_batch. rewrite Hh, Hd, Hl.
      apply N.eqb_neq in Hc. rewrite Hc. intros [= <- <-]. cbn. tauto. }
  destruct (x11_job_array buf) as [|job rest] eqn:Ha.
  { unfold _x11_init_remote_batch. rewrite Hh, Hd, Hl, Hc, Ha. discriminate. }
  destruct (x11_getpwuid xw (user_id (x11_info job))) as [pst pw] eqn:Hp.
  destruct (Z.eqb_spec pst 0) as [->|Hpst].
  2:{ unfold _x11_init_remote_batch. rewrite Hh, Hd, Hl, Hc, Ha, Hp.
      apply Z.eqb_neq in Hpst. rewrite Hpst. intros [= <- <-]. cbn. tauto. }
  destruct (malloc_ok (x11_base xw)) eqn:Hm.
  2:{ unfold _x11_init_remote_batch. rewrite Hh, Hd, Hl, Hc, Ha, Hp, Hm.
      intros [= <- <-]. cbn. tauto. }
  destruct pw as [pw_name|].
  2:{ unfold _x11_init_remote_batch. rewrite Hh, Hd, Hl, Hc, Ha, Hp, Hm.
      discriminate. }
  destruct (alloc_node job) as [alloc|] eqn:Hal.
  2:{ unfold _x11_init_remote_batch. rewrite Hh, Hd, Hl, Hc, Ha, Hp, Hm, Hal.
      discriminate. }
  rewrite (batch_run X11_LIBEXEC_PROG Hprog xw cfg env jobid stepid
             localhost display pw_name alloc buf job rest
             Hh Hd Hl Hc Ha Hp Hal Hm).
  destruct (146 <=? _)%nat; [intros [= <- <-]; cbn; tauto|].
  destruct (popen_out (x11_base xw) _) as [out|];
    [|intros [= <- <-]; cbn; tauto].
  destruct (fscanf_255s out); [|intros [= <- <-]; cbn; tauto].
  destruct (x11_setenv_ok xw); intros [= <- <-]; cbn; tauto.
Qed.

(** When [getpwuid_r] reports success without having found an entry, the
    batch set-up does not notice: with its buffer at hand it reads the
    user's name from a record that was never filled in. *)
Theorem batch_missing_user_entry (localhost display : string)
  (buf : x11_job_info_msg_t) (job : x11_job_info_t)
  (rest : list x11_job_info_t) :
  x11_hostname xw = Some localhost ->
  spank_getenv_256 env = Some display ->
  x11_load_job xw jobid = (0%Z, buf) ->
  x11_record_count buf = 1%N -> x11_job_array buf = job :: rest ->
  x11_getpwuid xw (user_id (x11_info job)) = (0%Z, None) ->
  malloc_ok (x11_base xw) = true ->
  _x11_init_remote_batch X11_LIBEXEC_PROG xw cfg env jobid stepid = ([], Fault).
Proof.
  intros Hh Hd Hl Hc Ha Hp Hm. unfold _x11_init_remote_batch.
  rewrite Hh, Hd, Hl, Hc, Ha, Hp, Hm. reflexivity.
Qed.

End X11BatchStatuses.

(** ** The user set-up hook *)

Section UserInit.

Variables (X11_LIBEXEC_PROG : string) (m : X11Modes) (SLURM_BATCH_SCRIPT : N)
  (xw : X11World) (cfg : Config) (env : option string).

(** With no X11 mode the hook does nothing and returns 0.  With one, and
    the ids at hand, the batch mode on the batch script runs the batch
    set-up and every other mode runs the interactive set-up, whatever the
    step; the batch mode on any other step reaches the end of the
    function, where no value is returned. *)
Theorem user_init_dispatch (x11_mode : Z) (jobid stepid : N) :
  slurm_spank_user_init X11_LIBEXEC_PROG m SLURM_BATCH_SCRIPT xw cfg
    (X11_MODE_NONE m) env = ([], Ret (0%Z, env))
  /\ (x11_mode <> X11_MODE_NONE m ->
      S_JOB_ID (x11_base xw) = Some jobid ->
      S_JOB_STEPID (x11_base xw) = Some stepid ->
      (x11_mode <> X11_MODE_BATCH m ->
       slurm_spank_user_init X11_LIBEXEC_PROG m SLURM_BATCH_SCRIPT xw cfg
         x11_mode env =
       _x11_init_remote_inter X11_LIBEXEC_PROG xw env jobid stepid)
      /\ (x11_mode = X11_MODE_BATCH m -> stepid = SLURM_BATCH_SCRIPT ->
          slurm_spank_user_init X11_LIBEXEC_PROG m SLURM_BATCH_SCRIPT xw cfg
            x11_mode env =
          _x11_init_remote_batch X11_LIBEXEC_PROG xw cfg env jobid stepid)
      /\ (x11_mode = X11_MODE_BATCH m -> stepid <> SLURM_BATCH_SCRIPT ->
          slurm_spank_user_init X11_LIBEXEC_PROG m SLURM_BATCH_SCRIPT xw cfg
            x11_mode env = ([], Fault))).
Proof.
  split.
  - unfold slurm_spank_user_init. now rewrite Z.eqb_refl.
  - intros Hmode Hj Hs. unfold slurm_spank_user_init.
    apply Z.eqb_neq in Hmode. rewrite Hmode, Hj, Hs.
    split; [|split].
    + intros Hb. apply Z.eqb_neq in Hb. rewrite Hb, andb_false_r.
      reflexivity.
    + intros Hb ->. apply Z.eqb_eq in Hb. now rewrite Hb, N.eqb_refl.
    + intros Hb Hstep. apply Z.eqb_eq in Hb. apply N.eqb_neq in Hstep.
      now rewrite Hb, Hstep.
Qed.

End UserInit.

(** ** The further properties at concrete inputs *)

Section FurtherInstances.

Lemma config_values_have_no_bar_witness :
  mem "|" "-v -4" = false.
Proof.
  apply (config_values_have_no_bar (fun _ => true) ["ssh_args=-v|-4"] "-v -4").
  right. left. reflexivity.
Defined.

Lemma config_ignores_unrecognized_witness :
  __stunnel_init_config (fun _ => true) config_init
    ["verbose"; "ssh_cmd"; "xssh_args=-v"] = config_init.
Proof.
  apply config_ignores_unrecognized. repeat constructor.
Defined.

Lemma config_load_composes_witness :
  __stunnel_init_config (fun _ => true) config_init
    (["ssh_cmd=rsh"; "ssh_args=-4"] ++ ["ssh_cmd=ssh|-q"])%list =
  __stunnel_init_config (fun _ => true)
    (__stunnel_init_config (fun _ => true) config_init
       ["ssh_cmd=rsh"; "ssh_args=-4"])
    ["ssh_cmd=ssh|-q"].
Proof.
  apply (config_load_composes (fun _ => true) config_init
           ["ssh_cmd=rsh"; "ssh_args=-4"] ["ssh_cmd=ssh|-q"]).
  reflexivity.
Defined.

Lemma config_strdup_failure_resets_witness :
  ssh_cmd (__stunnel_init_config (fun i => negb (Nat.eqb i 1)) config_init
             (["ssh_cmd=rsh"] ++ "ssh_cmd=ssh" :: ["verbose"])%list) = None.
Proof.
  apply (config_strdup_failure_resets (fun i => negb (Nat.eqb i 1))
           config_init ["ssh_cmd=rsh"] ["verbose"] "ssh_cmd=ssh").
  - reflexivity.
  - reflexivity.
  - repeat constructor.
Defined.

Lemma connect_node_closes_stream_witness :
  pcloses (trace (_connect_node
                    (scenario false (Some "nodeA,nodeB") (Some "54321"))
                    config_init (Some "nodeA") 100 0)) =
  List.length
    (popens (trace (_connect_node
                      (scenario false (Some "nodeA,nodeB") (Some "54321"))
                      config_init (Some "nodeA") 100 0))).
Proof.
  apply (connect_node_closes_stream
           (scenario false (Some "nodeA,nodeB") (Some "54321"))
           config_init "nodeA" 100 0 0%Z).
  reflexivity.
Defined.

Lemma connect_cmd_ids_injective_witness :
  (100 = 100 /\ 0 = 0)%N.
Proof.
  apply (connect_cmd_ids_injective config_init "nodeA" 100 0 100 0);
    reflexivity.
Defined.

Lemma exit_cmd_ids_injective_witness :
  (100 = 100 /\ 0 = 0)%N.
Proof.
  apply (exit_cmd_ids_injective "/usr/libexec/slurm-spank-x11" eq_refl
           (scenario true (Some "nodeA,nodeB") (Some ""))
           (scenario true (Some "nodeA") None) 100 0 100 0);
    reflexivity.
Defined.

Lemma connect_nodes_only_first_witness :
  popens (trace (_stunnel_connect_nodes
                   (scenario false (Some "nodeA,nodeB") (Some "54321"))
                   config_init "nodeA,nodeB" 100 0)) =
  [connect_cmd config_init "nodeA" 100 0].
Proof.
  apply (connect_nodes_only_first
           (scenario false (Some "nodeA,nodeB") (Some "54321"))
           config_init "nodeA,nodeB" "nodeA" ["nodeB"] 100 0).
  reflexivity.
Defined.

Lemma local_user_init_frees_buffer_witness :
  frees (trace (slurm_spank_local_user_init
                  (scenario false (Some "nodeA,nodeB") (Some "54321"))
                  config_init)) = 1.
Proof.
  apply (local_user_init_frees_buffer
           (scenario false (Some "nodeA,nodeB") (Some "54321"))
           config_init 0%Z).
  reflexivity.
Defined.

Lemma local_user_init_statuses_witness :
  popens (trace (slurm_spank_local_user_init (scenario_records 2 [])
                   config_init)) = [].
Proof.
  apply (local_user_init_statuses (scenario_records 2 []) config_init (-4)%Z).
  - reflexivity.
  - discriminate.
Defined.

Lemma exit_statuses_witness :
  List.length
    (popens (trace (slurm_spank_exit "/usr/libexec/slurm-spank-x11"
                      (scenario true (Some "nodeA,nodeB") (Some "")))))
  <= 1.
Proof.
  apply (exit_statuses "/usr/libexec/slurm-spank-x11" eq_refl
           (scenario true (Some "nodeA,nodeB") (Some "")) 0%Z).
  reflexivity.
Defined.

Lemma exit_popen_null_witness :
  result (slurm_spank_exit "/usr/libexec/slurm-spank-x11"
            (scenario true (Some "nodeA,nodeB") None)) = Ret 0%Z.
Proof.
  apply (exit_popen_null "/usr/libexec/slurm-spank-x11" eq_refl
           (scenario true (Some "nodeA,nodeB") None) 100 0);
    reflexivity.
Defined.

Lemma x11_opt_accepted_values_witness :
  _x11_opt_process modes_0_to_4 0 (Some "firstly") =
    ([Log Error "Bad value for --x11: firstly"], Ret (0%Z, (-1)%Z)).
Proof.
  apply (x11_opt_accepted_values modes_0_to_4); try discriminate.
  reflexivity.
Defined.

Lemma x11_opt_batch_is_prefix_witness :
  _x11_opt_process modes_0_to_4 0 (Some ("batch" ++ "es")) =
    ([], Ret (4%Z, 0%Z)).
Proof.
  apply (x11_opt_batch_is_prefix modes_0_to_4). discriminate.
Defined.

Lemma x11_opt_bad_value_after_good_witness :
  _x11_opt_process modes_0_to_4 2 (Some "none") = ([], Ret (2%Z, 0%Z)).
Proof.
  apply (x11_opt_bad_value_after_good modes_0_to_4);
    [discriminate | reflexivity].
Defined.

Lemma inter_always_returns_witness :
  exists status env',
    result (_x11_init_remote_inter "/usr/libexec/slurm-spank-x11"
              (x11_scenario (Some "localhost:10.0") (Some "alice")) None
              100 0) = Ret (status, env')
    /\ In status [0; -2; -3; -4; -5]%Z.
Proof.
  destruct (inter_always_returns "/usr/libexec/slurm-spank-x11" eq_refl
              (x11_scenario (Some "localhost:10.0") (Some "alice")) None
              100 0) as (status & env' & H & Hin & _).
  exists status, env'. split; assumption.
Defined.

Lemma inter_sets_display_witness :
  result (_x11_init_remote_inter "/usr/libexec/slurm-spank-x11"
            (x11_scenario (Some "localhost:10.0") (Some "alice")) None
            100 0) = Ret (0%Z, Some "localhost:10.0").
Proof.
  apply (inter_sets_display "/usr/libexec/slurm-spank-x11" eq_refl).
  split; [reflexivity|]. split; [reflexivity|].
  exists "localhost:10.0", "localhost:10.0". repeat split.
Defined.

Lemma inter_command_witness :
  popens (trace (_x11_init_remote_inter "/usr/libexec/slurm-spank-x11"
                   (x11_scenario (Some "localhost:10.0") (Some "alice")) None
                   100 0)) =
  ["/usr/libexec/slurm-spank-x11 -i 100.0 -g"].
Proof.
  apply (inter_command "/usr/libexec/slurm-spank-x11" eq_refl
           (x11_scenario (Some "localhost:10.0") (Some "alice")) None 100 0).
Defined.

Lemma batch_overflow_guard_witness :
  _x11_init_remote_batch "/usr/libexec/slurm-spank-x11"
    (x11_scenario (Some "localhost:10.0") (Some long_name)) config_init
    (Some ":0") 100 0 =
  ([Log Error "x11: error while building cmd"; FreeJobInfo],
   Ret ((-2)%Z, Some ":0")).
Proof.
  apply (batch_overflow_guard "/usr/libexec/slurm-spank-x11" eq_refl
           (x11_scenario (Some "localhost:10.0") (Some long_name))
           config_init (Some ":0") 100 0 "nodeA" ":0" long_name "login1"
           {| x11_record_count := 1;
              x11_job_array :=
                [ {| x11_info := {| nodes := Some "nodeA,nodeB";
                                    user_id := 1000 |};
                     alloc_node := Some "login1" |} ] |}
           {| x11_info := {| nodes := Some "nodeA,nodeB"; user_id := 1000 |};
              alloc_node := Some "login1" |} []
           eq_refl eq_refl eq_refl eq_refl eq_refl eq_refl eq_refl eq_refl).
  vm_compute. lia.
Defined.

Lemma batch_statuses_witness :
  frees (trace (_x11_init_remote_batch "/usr/libexec/slurm-spank-x11"
                  (x11_scenario (Some "localhost:10.0") (Some "alice"))
                  config_init (Some ":0") 100 0)) = 1.
Proof.
  apply (batch_statuses "/usr/libexec/slurm-spank-x11" eq_refl
           (x11_scenario (Some "localhost:10.0") (Some "alice"))
           config_init (Some ":0") 100 0 0%Z (Some "localhost:10.0")).
  reflexivity.
Defined.

Lemma batch_missing_user_entry_witness :
  _x11_init_remote_batch "/usr/libexec/slurm-spank-x11"
    (x11_scenario (Some "localhost:10.0") None) config_init
    (Some ":0") 100 0 = ([], Fault).
Proof.
  apply (batch_missing_user_entry "/usr/libexec/slurm-spank-x11"
           (x11_scenario (Some "localhost:10.0") None) config_init
           (Some ":0") 100 0 "nodeA" ":0"
           {| x11_record_count := 1;
              x11_job_array :=
                [ {| x11_info := {| nodes := Some "nodeA,nodeB";
                                    user_id := 1000 |};
                     alloc_node := Some "login1" |} ] |}
           {| x11_info := {| nodes := Some "nodeA,nodeB"; user_id := 1000 |};
              alloc_node := Some "login1" |} []);
    reflexivity.
Defined.

Lemma user_init_dispatch_witness :
  slurm_spank_user_init "/usr/libexec/slurm-spank-x11" modes_0_to_4
    4294967294 (x11_scenario (Some "localhost:10.0") (Some "alice"))
    config_init 4 None = ([], Fault).
Proof.
  apply (user_init_dispatch "/usr/libexec/slurm-spank-x11" modes_0_to_4
           4294967294 (x11_scenario (Some "localhost:10.0") (Some "alice"))
           config_init None 4%Z 100 0);
    try reflexivity; discriminate.
Defined.

End FurtherInstances.
